(** * Smart auto-scaler dashboard: decision normaliser, gateway client,
      session guard and view controllers

    A shallow embedding of the dashboard's TypeScript sources:
    - [models/api.models.ts]            the records exchanged with the backend;
    - [decisions.component.ts]          the accessors that reconcile the legacy
                                        and the enhanced decision shapes;
    - [services/api.service.ts]         the gateway client and its error handler;
    - [services/auth.service.ts]        the demo session guard;
    - [dashboard|pods|decisions|config.component.ts]  the load lifecycles.

    JavaScript numbers are IEEE-754 binary64 values, so they are modelled by
    Rocq's primitive floats; integers that end up in a URL or a message
    (the result limit, an HTTP status) are modelled by [Z]. *)

From Stdlib Require Import ZArith String List Bool Floats DecimalString.
From stdpp Require Import base option gmap strings.
Import ListNotations.

Local Open Scope string_scope.

(** ** JavaScript values *)

Module Js.

(** [if (x)] on a number: [0], [-0] and [NaN] are falsy. *)
Definition truthy (x : float) : bool :=
  negb (PrimFloat.is_zero x || PrimFloat.is_nan x).

(** [x !== 0] on a number. *)
Definition strict_ne_zero (x : float) : bool :=
  negb (PrimFloat.eqb x 0%float).

(** [x == y] on two numbers (IEEE comparison: [-0 == 0], [NaN] equals nothing). *)
Definition num_eq (x y : float) : bool := PrimFloat.eqb x y.

(** [a || k] where [a] is a possibly missing number: the first operand when
    it is truthy, the second one otherwise.  The accessor idiom
    [if (a) return a; return k;] is the same expression. *)
Definition truthy_or (a : option float) (k : float) : float :=
  match a with
  | Some v => if truthy v then v else k
  | None => k
  end.

(** Template-literal rendering of an integer, [`${n}`]. *)
Definition int_to_string (n : Z) : string :=
  NilZero.string_of_int (Z.to_int n).

(** A thrown [Error] object: [new Error(message)]. *)
Record Error := mkError { message : string }.

End Js.

(** ** Data model ([api.models.ts]) *)

Inductive Action := DECREASE | MAINTAIN | INCREASE.

Definition Action_to_string (a : Action) : string :=
  match a with
  | DECREASE => "DECREASE"
  | MAINTAIN => "MAINTAIN"
  | INCREASE => "INCREASE"
  end.

Definition Action_eqb (a b : Action) : bool :=
  match a, b with
  | DECREASE, DECREASE | MAINTAIN, MAINTAIN | INCREASE, INCREASE => true
  | _, _ => false
  end.

Module Owner.
Record t := mk { kind : string; name : string; uid : string }.
End Owner.

Module Pod.
Record t := mk {
  name : string;
  namespace : string;
  uid : string;
  labels : gmap string string;
  owner : option Owner.t
}.
End Pod.

(** [{ cpu_cores: number; memory_mb: number }], the shape of
    [current_resources], [proposed_resources] and [current_usage]. *)
Module Resources.
Record t := mk { cpu_cores : float; memory_mb : float }.
End Resources.

(** [{ cpu: number; memory: number }], the shape of the confidence pair and of
    [future_predictions]. *)
Module CpuMemory.
Record t := mk { cpu : float; memory : float }.
End CpuMemory.

Module CurrentMetrics.
Record t := mk {
  cpu_limit : float;
  cpu_usage : float;
  memory_limit_mb : float;
  memory_usage_mb : float
}.
End CurrentMetrics.

Module ResourceChange.
Record t := mk {
  action : string;
  change_percent : float;
  current : float;
  new : float
}.
End ResourceChange.

(** The interface declares both members, but every accessor reads them through
    [?.], so a missing member is part of the model. *)
Module ResourceChanges.
Record t := mk {
  cpu : option ResourceChange.t;
  memory : option ResourceChange.t
}.
End ResourceChanges.

Module Utilization.
Record t := mk { cpu_percentage : float; memory_percentage : float }.
End Utilization.

(** [confidence?: number | { cpu: number; memory: number }] *)
Inductive Confidence :=
| ConfNumber (n : float)
| ConfPair (p : CpuMemory.t).

Record ScalingDecision := mkScalingDecision {
  pod : option string;
  namespace : string;
  pod_name : string;
  action : option Action;
  action_index : option float;
  confidence : option Confidence;
  q_values : option (list float);
  current_resources : option Resources.t;
  proposed_resources : option Resources.t;
  current_usage : option Resources.t;
  timestamp : string;
  applied : option bool;
  reason : option string;
  (* enhanced format *)
  can_scale : option bool;
  cpu_action : option Action;
  memory_action : option Action;
  current_metrics : option CurrentMetrics.t;
  future_predictions : option CpuMemory.t;
  resource_changes : option ResourceChanges.t;
  utilization : option Utilization.t
}.

(** ** Decision normaliser ([decisions.component.ts], lines 68-178) *)

Module Normalizer.

(** Every literal of the [action] union is a non-empty string, so
    [if (decision.action)] tests presence. *)
Definition getOverallAction (decision : ScalingDecision) : string :=
  match action decision with
  | Some a => Action_to_string a
  | None =>
      match cpu_action decision, memory_action decision with
      | Some c, Some m =>
          if Action_eqb c INCREASE || Action_eqb m INCREASE then "INCREASE"
          else if Action_eqb c DECREASE || Action_eqb m DECREASE then "DECREASE"
          else "MAINTAIN"
      | _, _ => "MAINTAIN"
      end
  end.

Definition getOverallConfidence (decision : ScalingDecision) : float :=
  match confidence decision with
  | Some (ConfNumber n) => n
  | Some (ConfPair p) => ((CpuMemory.cpu p + CpuMemory.memory p) / 2)%float
  | None => 0%float
  end.

Definition getCurrentCpuCores (decision : ScalingDecision) : float :=
  Js.truthy_or (Resources.cpu_cores <$> current_resources decision)
    (Js.truthy_or (CurrentMetrics.cpu_usage <$> current_metrics decision)
       0%float).

Definition getProposedCpuCores (decision : ScalingDecision) : float :=
  Js.truthy_or (Resources.cpu_cores <$> proposed_resources decision)
    (Js.truthy_or
       (ResourceChange.new <$> (resource_changes decision ≫= ResourceChanges.cpu))
       (getCurrentCpuCores decision)).

Definition getCurrentMemoryMb (decision : ScalingDecision) : float :=
  Js.truthy_or (Resources.memory_mb <$> current_resources decision)
    (Js.truthy_or (CurrentMetrics.memory_usage_mb <$> current_metrics decision)
       0%float).

Definition getProposedMemoryMb (decision : ScalingDecision) : float :=
  Js.truthy_or (Resources.memory_mb <$> proposed_resources decision)
    (Js.truthy_or
       (ResourceChange.new <$> (resource_changes decision ≫= ResourceChanges.memory))
       (getCurrentMemoryMb decision)).

Definition getCpuChangePercent (decision : ScalingDecision) : float :=
  Js.truthy_or
    (ResourceChange.change_percent <$>
       (resource_changes decision ≫= ResourceChanges.cpu))
    0%float.

Definition getMemoryChangePercent (decision : ScalingDecision) : float :=
  Js.truthy_or
    (ResourceChange.change_percent <$>
       (resource_changes decision ≫= ResourceChanges.memory))
    0%float.

Definition hasCpuChanges (decision : ScalingDecision) : bool :=
  match resource_changes decision ≫= ResourceChanges.cpu with
  | Some c => Js.strict_ne_zero (ResourceChange.change_percent c)
  | None => false
  end.

Definition hasMemoryChanges (decision : ScalingDecision) : bool :=
  match resource_changes decision ≫= ResourceChanges.memory with
  | Some c => Js.strict_ne_zero (ResourceChange.change_percent c)
  | None => false
  end.

End Normalizer.


(** ** Remaining records of [api.models.ts] *)

Module PodMetrics.
Record t := mk {
  cpu_usage_cores : float;
  memory_usage_mb : float;
  timestamp : string
}.
End PodMetrics.

Module PodResources.
Record t := mk {
  cpu_requests_cores : float;
  memory_requests_mb : float;
  limits : Resources.t
}.
End PodResources.

Module ActionCounts.
Record t := mk { DECREASE : float; INCREASE : float; MAINTAIN : float }.
End ActionCounts.

Module ActionDistribution.
Record t := mk { cpu_actions : ActionCounts.t; memory_actions : ActionCounts.t }.
End ActionDistribution.

Module ModelPerformance.
Record t := mk {
  average_cpu_confidence : float;
  average_memory_confidence : float;
  model_type : string
}.
End ModelPerformance.

Module Overview.
Record t := mk {
  applied_scalings : float;
  scaling_rate : float;
  total_decisions : float;
  total_pods_monitored : float
}.
End Overview.

Module ResourceUtilization.
Record t := mk { average_cpu_usage : float; average_memory_usage_mb : float }.
End ResourceUtilization.

Module SystemStatus.
Record t := mk {
  cooldown_period_minutes : float;
  dry_run_mode : bool;
  kubernetes_available : bool;
  scale_factor : float
}.
End SystemStatus.

Module Statistics.
Record t := mk {
  action_distribution : ActionDistribution.t;
  model_performance : ModelPerformance.t;
  overview : Overview.t;
  resource_utilization : ResourceUtilization.t;
  system_status : SystemStatus.t;
  timestamp : string
}.
End Statistics.

Module Config.
Record t := mk {
  model_path : string;
  state_dim : float;
  action_dim : float;
  history_window : float;
  min_cpu : float;
  max_cpu : float;
  min_memory : float;
  max_memory : float;
  scale_factor : float;
  dry_run : bool;
  in_cluster : bool;
  namespaces : list string;
  auto_scale_enabled : bool;
  auto_scale_interval : float;
  scaling_cooldown : float
}.
End Config.

(** [Partial<Config>]: every member may be missing. *)
Module PartialConfig.
Record t := mk {
  model_path : option string;
  state_dim : option float;
  action_dim : option float;
  history_window : option float;
  min_cpu : option float;
  max_cpu : option float;
  min_memory : option float;
  max_memory : option float;
  scale_factor : option float;
  dry_run : option bool;
  in_cluster : option bool;
  namespaces : option (list string);
  auto_scale_enabled : option bool;
  auto_scale_interval : option float;
  scaling_cooldown : option float
}.
End PartialConfig.

Module AutoscaleStatus.
Record t := mk {
  enabled : bool;
  running : bool;
  interval_seconds : float;
  thread_alive : bool
}.
End AutoscaleStatus.

Module HealthStatus.
Record t := mk { status : string; service : string; timestamp : string }.
End HealthStatus.

(** A value of type [any]: whatever JSON the backend answered. *)
#[local] Unset Elimination Schemes.
Inductive Json :=
| JNull
| JBool (b : bool)
| JNumber (n : float)
| JString (s : string)
| JArray (items : list Json)
| JObject (members : list (string * Json)).
#[local] Set Elimination Schemes.

(** ** Response envelopes declared inline in [api.service.ts] *)

Module PodsResponse.
Record t := mk { success : bool; count : float; pods : list Pod.t }.
End PodsResponse.

Module PodInfoResponse.
Record t := mk {
  success : bool;
  pod : string;
  metrics : PodMetrics.t;
  resources : PodResources.t
}.
End PodInfoResponse.

Module ScalePodResponse.
Record t := mk { success : bool; result : ScalingDecision }.
End ScalePodResponse.

Module ScaleAllResponse.
Record t := mk {
  success : bool;
  processed : float;
  results : list ScalingDecision;
  statistics : Statistics.t;
  timestamp : string
}.
End ScaleAllResponse.

Module DecisionsResponse.
Record t := mk { success : bool; count : float; decisions : list ScalingDecision }.
End DecisionsResponse.

Module StatisticsResponse.
Record t := mk { success : bool; statistics : Statistics.t }.
End StatisticsResponse.

Module StartAutoscaleResponse.
Record t := mk { success : bool; message : string; interval : float }.
End StartAutoscaleResponse.

Module StopAutoscaleResponse.
Record t := mk { success : bool; message : string }.
End StopAutoscaleResponse.

(** ** HTTP transport and observables *)

Module Http.

Inductive Method := GET | POST.

Inductive Body :=
| NoBody
| EmptyObject
| ConfigBody (config : PartialConfig.t).

Record Request := mkRequest {
  method : Method;
  url : string;
  body : Body;
  (** the [Content-Type: application/json] header of [httpOptions] *)
  json_header : bool
}.

(** What [error.error] holds: an [ErrorEvent] (client-side failure) or
    anything else (an error body, a parse failure, a progress event). *)
Inductive ErrorPayload :=
| ErrorEvent (message : string)
| OtherPayload.

(** [HttpErrorResponse], the value the HTTP client raises for a network
    failure, a non-2xx status or a body that does not parse. *)
Record ErrorResponse := mkErrorResponse {
  error : ErrorPayload;
  status : Z;
  message : string
}.

(** The backend as seen from the client: the answer to each request, cast to
    the type [A] that the call site asked for. *)
Definition Transport (A : Type) : Type := Request -> A + ErrorResponse.

End Http.

Module Rx.

(** What one subscription did: the requests it sent, in order, and the
    notification that ended it ([next] with a value, or [error]). *)
Record Emission (A E : Type) := mkEmission {
  sent : list Http.Request;
  outcome : A + E
}.
Arguments mkEmission {A E} _ _.
Arguments sent {A E} _.
Arguments outcome {A E} _.

(** A cold observable over a backend answering at type [T]. *)
Definition Observable (T A E : Type) : Type := Http.Transport T -> Emission A E.

(** [http.get] / [http.post]: one request, answered by the transport. *)
Definition request {T : Type} (req : Http.Request) : Observable T T Http.ErrorResponse :=
  fun transport => mkEmission [req] (transport req).

(** [throwError(() => e)]: no request, an immediate error notification. *)
Definition throwError {T A E : Type} (factory : unit -> E) : Observable T A E :=
  fun _ => mkEmission [] (inr (factory tt)).

(** [source.pipe(catchError(selector))]: values pass through; on an error the
    subscription continues with the observable the selector returns. *)
Definition catchError {T A E E' : Type} (selector : E -> Observable T A E')
    (source : Observable T A E) : Observable T A E' :=
  fun transport =>
    let first := source transport in
    match outcome first with
    | inl a => mkEmission (sent first) (inl a)
    | inr e =>
        let second := selector e transport in
        mkEmission (sent first ++ sent second) (outcome second)
    end.

(** The pair of callbacks handed to [subscribe], acting on a component
    state [S]. *)
Record Observer (A S : Type) := mkObserver {
  next : A -> S -> S;
  error : Js.Error -> S -> S
}.
Arguments mkObserver {A S} _ _.
Arguments next {A S} _ _ _.
Arguments error {A S} _ _ _.

Definition notify {A S : Type} (observer : Observer A S) (n : A + Js.Error) : S -> S :=
  match n with
  | inl a => next observer a
  | inr e => error observer e
  end.

(** [source.subscribe(observer)] run to completion: the requests sent and the
    state the callback leaves. *)
Definition subscribe {T A S : Type} (source : Observable T A Js.Error)
    (observer : Observer A S) (transport : Http.Transport T) (st : S)
    : list Http.Request * S :=
  let e := source transport in
  (sent e, notify observer (outcome e) st).

End Rx.

(** ** Gateway client ([api.service.ts]) *)

Module ApiService.

Definition apiUrl : string := "http://localhost:5404".

Definition newline : string := String (Ascii.ascii_of_nat 10) "".

Definition get (url : string) : Http.Request :=
  Http.mkRequest Http.GET url Http.NoBody false.

Definition post (url : string) (body : Http.Body) (json_header : bool) : Http.Request :=
  Http.mkRequest Http.POST url body json_header.

(** The message built by [handleError] (lines 146-154). *)
Definition errorMessage (error : Http.ErrorResponse) : string :=
  match Http.error error with
  | Http.ErrorEvent m => "Error: " +:+ m
  | Http.OtherPayload =>
      "Error Code: " +:+ Js.int_to_string (Http.status error) +:+ newline +:+
      "Message: " +:+ Http.message error
  end.

Definition handleError {T A : Type} (error : Http.ErrorResponse)
    : Rx.Observable T A Js.Error :=
  Rx.throwError (fun _ => Js.mkError (errorMessage error)).

Definition getHealth_request : Http.Request := get (apiUrl +:+ "/health").
Definition getHealth : Rx.Observable HealthStatus.t HealthStatus.t Js.Error :=
  Rx.catchError handleError (Rx.request getHealth_request).

Definition getConfig_request : Http.Request := get (apiUrl +:+ "/config").
Definition getConfig : Rx.Observable Config.t Config.t Js.Error :=
  Rx.catchError handleError (Rx.request getConfig_request).

Definition updateConfig_request (config : PartialConfig.t) : Http.Request :=
  post (apiUrl +:+ "/config") (Http.ConfigBody config) true.
Definition updateConfig (config : PartialConfig.t) : Rx.Observable Json Json Js.Error :=
  Rx.catchError handleError (Rx.request (updateConfig_request config)).

Definition getPods_request : Http.Request := get (apiUrl +:+ "/pods").
Definition getPods : Rx.Observable PodsResponse.t PodsResponse.t Js.Error :=
  Rx.catchError handleError (Rx.request getPods_request).

Definition getPodInfo_request (namespace podName : string) : Http.Request :=
  get (apiUrl +:+ "/pods/" +:+ namespace +:+ "/" +:+ podName).
Definition getPodInfo (namespace podName : string)
    : Rx.Observable PodInfoResponse.t PodInfoResponse.t Js.Error :=
  Rx.catchError handleError (Rx.request (getPodInfo_request namespace podName)).

Definition scalePod_request (namespace podName : string) : Http.Request :=
  post (apiUrl +:+ "/scale/pod/" +:+ namespace +:+ "/" +:+ podName)
       Http.EmptyObject false.
Definition scalePod (namespace podName : string)
    : Rx.Observable ScalePodResponse.t ScalePodResponse.t Js.Error :=
  Rx.catchError handleError (Rx.request (scalePod_request namespace podName)).

Definition scaleAllPods_request : Http.Request :=
  post (apiUrl +:+ "/scale/all") Http.EmptyObject false.
Definition scaleAllPods : Rx.Observable ScaleAllResponse.t ScaleAllResponse.t Js.Error :=
  Rx.catchError handleError (Rx.request scaleAllPods_request).

(** [getDecisions(limit: number = 50)]: a missing argument means 50. *)
Definition getDecisions_request (limit : option Z) : Http.Request :=
  get (apiUrl +:+ "/decisions?limit=" +:+ Js.int_to_string (default 50%Z limit)).
Definition getDecisions (limit : option Z)
    : Rx.Observable DecisionsResponse.t DecisionsResponse.t Js.Error :=
  Rx.catchError handleError (Rx.request (getDecisions_request limit)).

Definition getStatistics_request : Http.Request := get (apiUrl +:+ "/statistics").
Definition getStatistics
    : Rx.Observable StatisticsResponse.t StatisticsResponse.t Js.Error :=
  Rx.catchError handleError (Rx.request getStatistics_request).

Definition startAutoscale_request : Http.Request :=
  post (apiUrl +:+ "/autoscale/start") Http.EmptyObject false.
Definition startAutoscale
    : Rx.Observable StartAutoscaleResponse.t StartAutoscaleResponse.t Js.Error :=
  Rx.catchError handleError (Rx.request startAutoscale_request).

Definition stopAutoscale_request : Http.Request :=
  post (apiUrl +:+ "/autoscale/stop") Http.EmptyObject false.
Definition stopAutoscale
    : Rx.Observable StopAutoscaleResponse.t StopAutoscaleResponse.t Js.Error :=
  Rx.catchError handleError (Rx.request stopAutoscale_request).

Definition getAutoscaleStatus_request : Http.Request :=
  get (apiUrl +:+ "/autoscale/status").
Definition getAutoscaleStatus
    : Rx.Observable AutoscaleStatus.t AutoscaleStatus.t Js.Error :=
  Rx.catchError handleError (Rx.request getAutoscaleStatus_request).

Definition getModelInfo_request : Http.Request := get (apiUrl +:+ "/model/info").
Definition getModelInfo : Rx.Observable Json Json Js.Error :=
  Rx.catchError handleError (Rx.request getModelInfo_request).

(** The operations of the client, indexed by the type of their result. *)
Inductive Operation : Type -> Type :=
| GetHealth : Operation HealthStatus.t
| GetConfig : Operation Config.t
| UpdateConfig (config : PartialConfig.t) : Operation Json
| GetPods : Operation PodsResponse.t
| GetPodInfo (namespace podName : string) : Operation PodInfoResponse.t
| ScalePod (namespace podName : string) : Operation ScalePodResponse.t
| ScaleAllPods : Operation ScaleAllResponse.t
| GetDecisions (limit : option Z) : Operation DecisionsResponse.t
| GetStatistics : Operation StatisticsResponse.t
| StartAutoscale : Operation StartAutoscaleResponse.t
| StopAutoscale : Operation StopAutoscaleResponse.t
| GetAutoscaleStatus : Operation AutoscaleStatus.t
| GetModelInfo : Operation Json.

Definition request_of {A : Type} (op : Operation A) : Http.Request :=
  match op with
  | GetHealth => getHealth_request
  | GetConfig => getConfig_request
  | UpdateConfig config => updateConfig_request config
  | GetPods => getPods_request
  | GetPodInfo namespace podName => getPodInfo_request namespace podName
  | ScalePod namespace podName => scalePod_request namespace podName
  | ScaleAllPods => scaleAllPods_request
  | GetDecisions limit => getDecisions_request limit
  | GetStatistics => getStatistics_request
  | StartAutoscale => startAutoscale_request
  | StopAutoscale => stopAutoscale_request
  | GetAutoscaleStatus => getAutoscaleStatus_request
  | GetModelInfo => getModelInfo_request
  end.

Definition perform {A : Type} (op : Operation A) : Rx.Observable A A Js.Error :=
  match op in Operation A return Rx.Observable A A Js.Error with
  | GetHealth => getHealth
  | GetConfig => getConfig
  | UpdateConfig config => updateConfig config
  | GetPods => getPods
  | GetPodInfo namespace podName => getPodInfo namespace podName
  | ScalePod namespace podName => scalePod namespace podName
  | ScaleAllPods => scaleAllPods
  | GetDecisions limit => getDecisions limit
  | GetStatistics => getStatistics
  | StartAutoscale => startAutoscale
  | StopAutoscale => stopAutoscale
  | GetAutoscaleStatus => getAutoscaleStatus
  | GetModelInfo => getModelInfo
  end.

End ApiService.

(** ** Session guard ([auth.service.ts]) *)

Module AuthService.

(** The state the service acts on: the browser's [localStorage], the current
    value of [isAuthenticatedSubject], and the values it has pushed to its
    subscribers with [next], oldest first. *)
Record World := mkWorld {
  localStorage : gmap string string;
  isAuthenticatedSubject : bool;
  emitted : list bool
}.

Definition setItem (key value : string) (w : World) : World :=
  mkWorld (<[key := value]> (localStorage w)) (isAuthenticatedSubject w) (emitted w).

Definition removeItem (key : string) (w : World) : World :=
  mkWorld (delete key (localStorage w)) (isAuthenticatedSubject w) (emitted w).

Definition getItem (key : string) (w : World) : option string :=
  localStorage w !! key.

(** [isAuthenticatedSubject.next(value)] *)
Definition subject_next (value : bool) (w : World) : World :=
  mkWorld (localStorage w) value (emitted w ++ [value]).

Definition getStoredAuthState (storage : gmap string string) : bool :=
  bool_decide (storage !! "isAuthenticated" = Some "true").

(** Construction of the service on process start: the subject is seeded from
    the stored flag. *)
Definition create (storage : gmap string string) : World :=
  mkWorld storage (getStoredAuthState storage) [].

(** An observable of this service: run when subscribed, it yields its value
    and the world its side effects leave. *)
Definition Observable (A : Type) : Type := World -> A * World.

Definition of_value {A : Type} (a : A) : Observable A := fun w => (a, w).

(** [delay(ms)]: the value is delivered later; elapsed time is not part of
    the state. *)
Definition delay {A : Type} (ms : Z) (source : Observable A) : Observable A := source.

Definition tap {A : Type} (effect : A -> World -> World) (source : Observable A)
    : Observable A :=
  fun w => let '(a, w1) := source w in (a, effect a w1).

Definition login (username password : string) : Observable bool :=
  let isValid := String.eqb username "admin" && String.eqb password "admin" in
  tap (fun (success : bool) (w : World) =>
         if success
         then subject_next true
                (setItem "username" username (setItem "isAuthenticated" "true" w))
         else w)
      (delay 1000 (of_value isValid)).

Definition logout (w : World) : World :=
  subject_next false (removeItem "username" (removeItem "isAuthenticated" w)).

Definition isAuthenticated (w : World) : bool := isAuthenticatedSubject w.

Definition getUsername (w : World) : option string := getItem "username" w.

(** The calls that reach the service. *)
Inductive Event :=
| Login (username password : string)
| Logout.

Definition step (w : World) (ev : Event) : World :=
  match ev with
  | Login username password => snd (login username password w)
  | Logout => logout w
  end.

Definition run (events : list Event) (w : World) : World :=
  fold_left step events w.

End AuthService.

(** ** View controllers *)

Module PodsComponent.

Record t := mk {
  pods : list Pod.t;
  loading : bool;
  error : option string;
  scalingPod : option string
}.

Definition initial : t := mk [] true None None.

(** The synchronous prefix of [loadPods] (lines 26-27). *)
Definition loadPods_begin (st : t) : t := mk (pods st) true None (scalingPod st).

Definition loadPods_observer : Rx.Observer PodsResponse.t t :=
  Rx.mkObserver
    (fun response st =>
       let st1 :=
         if PodsResponse.success response
         then mk (PodsResponse.pods response) (loading st) (error st) (scalingPod st)
         else st in
       mk (pods st1) false (error st1) (scalingPod st1))
    (fun err st => mk (pods st) false (Some "Failed to load pods") (scalingPod st)).

Definition loadPods (transport : Http.Transport PodsResponse.t) (st : t)
    : list Http.Request * t :=
  Rx.subscribe ApiService.getPods loadPods_observer transport (loadPods_begin st).

End PodsComponent.

Module DecisionsComponent.

Record t := mk {
  decisions : list ScalingDecision;
  loading : bool;
  error : option string;
  limit : Z
}.

Definition initial : t := mk [] true None 50%Z.

Definition loadDecisions_begin (st : t) : t := mk (decisions st) true None (limit st).

(** [response.decisions.reverse()] reverses the array and returns it. *)
Definition loadDecisions_observer : Rx.Observer DecisionsResponse.t t :=
  Rx.mkObserver
    (fun response st =>
       let st1 :=
         if DecisionsResponse.success response
         then mk (rev (DecisionsResponse.decisions response))
                 (loading st) (error st) (limit st)
         else st in
       mk (decisions st1) false (error st1) (limit st1))
    (fun err st => mk (decisions st) false (Some "Failed to load decisions") (limit st)).

Definition loadDecisions (transport : Http.Transport DecisionsResponse.t) (st : t)
    : list Http.Request * t :=
  Rx.subscribe (ApiService.getDecisions (Some (limit st))) loadDecisions_observer
    transport (loadDecisions_begin st).

End DecisionsComponent.

Module ConfigComponent.

Record t := mk {
  config : option Config.t;
  loading : bool;
  error : option string;
  success : option string;
  saving : bool
}.

Definition initial : t := mk None true None None false.

Definition loadConfig_begin (st : t) : t :=
  mk (config st) true None (success st) (saving st).

Definition loadConfig_observer : Rx.Observer Config.t t :=
  Rx.mkObserver
    (fun received st => mk (Some received) false (error st) (success st) (saving st))
    (fun err st =>
       mk (config st) false (Some "Failed to load configuration") (success st) (saving st)).

Definition loadConfig (transport : Http.Transport Config.t) (st : t)
    : list Http.Request * t :=
  Rx.subscribe ApiService.getConfig loadConfig_observer transport (loadConfig_begin st).

End ConfigComponent.

Module DashboardComponent.

Record t := mk {
  statistics : option Statistics.t;
  autoscaleStatus : option AutoscaleStatus.t;
  config : option Config.t;
  loading : bool;
  error : option string
}.

Definition initial : t := mk None None None true None.

Definition loadDashboard_begin (st : t) : t :=
  mk (statistics st) (autoscaleStatus st) (config st) true None.

(** Lines 51-61. *)
Definition statistics_observer : Rx.Observer StatisticsResponse.t t :=
  Rx.mkObserver
    (fun response st =>
       if StatisticsResponse.success response
       then mk (Some (StatisticsResponse.statistics response))
               (autoscaleStatus st) (config st) (loading st) (error st)
       else st)
    (fun err st =>
       mk (statistics st) (autoscaleStatus st) (config st) (loading st)
          (Some "Failed to load statistics")).

(** Lines 64-69: a failure is only written to the console. *)
Definition autoscaleStatus_observer : Rx.Observer AutoscaleStatus.t t :=
  Rx.mkObserver
    (fun status st =>
       mk (statistics st) (Some status) (config st) (loading st) (error st))
    (fun err st => st).

(** Lines 72-82. *)
Definition config_observer : Rx.Observer Config.t t :=
  Rx.mkObserver
    (fun received st =>
       mk (statistics st) (autoscaleStatus st) (Some received) false (error st))
    (fun err st =>
       mk (statistics st) (autoscaleStatus st) (config st) false
          (Some "Failed to load configuration")).

(** The periodic refresh installed by [ngOnInit] (lines 30-39): a failure is
    only written to the console. *)
Definition refresh_observer : Rx.Observer StatisticsResponse.t t :=
  Rx.mkObserver
    (fun response st =>
       if StatisticsResponse.success response
       then mk (Some (StatisticsResponse.statistics response))
               (autoscaleStatus st) (config st) (loading st) (error st)
       else st)
    (fun err st => st).

(** [loadDashboard] with the three answers arriving in the order the calls
    were issued. *)
Definition loadDashboard
    (statisticsTransport : Http.Transport StatisticsResponse.t)
    (statusTransport : Http.Transport AutoscaleStatus.t)
    (configTransport : Http.Transport Config.t)
    (st : t) : list Http.Request * t :=
  let st0 := loadDashboard_begin st in
  let '(sent1, st1) :=
    Rx.subscribe ApiService.getStatistics statistics_observer statisticsTransport st0 in
  let '(sent2, st2) :=
    Rx.subscribe ApiService.getAutoscaleStatus autoscaleStatus_observer statusTransport st1 in
  let '(sent3, st3) :=
    Rx.subscribe ApiService.getConfig config_observer configTransport st2 in
  ((sent1 ++ sent2 ++ sent3)%list, st3).

End DashboardComponent.

(** ** Sample decisions *)

Module Samples.

(** A legacy-shape decision: one action, one confidence, resource pairs. *)
Definition legacy : ScalingDecision := {|
  pod := None; namespace := "default"; pod_name := "web-0";
  action := Some DECREASE; action_index := Some 0%float;
  confidence := Some (ConfNumber 0.75%float); q_values := None;
  current_resources := Some (Resources.mk 2%float 512%float);
  proposed_resources := Some (Resources.mk 1.5%float 384%float);
  current_usage := None; timestamp := "2025-01-01T00:00:00Z";
  applied := Some true; reason := None;
  can_scale := None; cpu_action := None; memory_action := None;
  current_metrics := None; future_predictions := None;
  resource_changes := None; utilization := None
|}.

(** An enhanced-shape decision whose two resources disagree and whose CPU
    change is zero. *)
Definition enhanced : ScalingDecision := {|
  pod := Some "default/web-0"; namespace := "default"; pod_name := "web-0";
  action := None; action_index := None;
  confidence := Some (ConfPair (CpuMemory.mk 0.5%float 0.25%float));
  q_values := None;
  current_resources := None; proposed_resources := None;
  current_usage := None; timestamp := "2025-01-01T00:00:00Z";
  applied := None; reason := None;
  can_scale := Some true;
  cpu_action := Some DECREASE; memory_action := Some INCREASE;
  current_metrics := Some (CurrentMetrics.mk 1%float 0.5%float 512%float 256%float);
  future_predictions := None;
  resource_changes := Some (ResourceChanges.mk
    (Some (ResourceChange.mk "MAINTAIN" 0%float 1%float 1%float))
    (Some (ResourceChange.mk "INCREASE" 25%float 512%float 640%float)));
  utilization := None
|}.

(** A legacy-shape decision that proposes zero CPU cores and zero memory for
    a pod that currently holds two cores and 512 MB. *)
Definition zero_proposal : ScalingDecision := {|
  pod := None; namespace := "default"; pod_name := "web-0";
  action := Some DECREASE; action_index := None;
  confidence := Some (ConfNumber 0.75%float); q_values := None;
  current_resources := Some (Resources.mk 2%float 512%float);
  proposed_resources := Some (Resources.mk 0%float 0%float);
  current_usage := None; timestamp := "2025-01-01T00:00:00Z";
  applied := None; reason := None;
  can_scale := None; cpu_action := None; memory_action := None;
  current_metrics := None; future_predictions := None;
  resource_changes := None; utilization := None
|}.

Definition statistics : Statistics.t := {|
  Statistics.action_distribution :=
    ActionDistribution.mk (ActionCounts.mk 1%float 2%float 3%float)
                          (ActionCounts.mk 0%float 1%float 5%float);
  Statistics.model_performance := ModelPerformance.mk 0.75%float 0.5%float "DQN";
  Statistics.overview := Overview.mk 2%float 0.25%float 6%float 3%float;
  Statistics.resource_utilization := ResourceUtilization.mk 0.5%float 256%float;
  Statistics.system_status := SystemStatus.mk 5%float true true 1.5%float;
  Statistics.timestamp := "2025-01-01T00:00:00Z"
|}.

Definition autoscaleStatus : AutoscaleStatus.t :=
  AutoscaleStatus.mk true true 60%float true.

Definition config : Config.t := {|
  Config.model_path := "model.pth"; Config.state_dim := 8%float;
  Config.action_dim := 9%float; Config.history_window := 10%float;
  Config.min_cpu := 0.125%float; Config.max_cpu := 4%float;
  Config.min_memory := 64%float; Config.max_memory := 4096%float;
  Config.scale_factor := 1.5%float; Config.dry_run := true;
  Config.in_cluster := false; Config.namespaces := ["default"];
  Config.auto_scale_enabled := false; Config.auto_scale_interval := 60%float;
  Config.scaling_cooldown := 300%float
|}.

Definition web_pod : Pod.t := Pod.mk "web-0" "default" "uid-1" ∅ None.

(** A backend that is down: every request fails with status 503. *)
Definition unavailable {A : Type} : Http.Transport A :=
  fun _ => inr (Http.mkErrorResponse Http.OtherPayload 503 "Service Unavailable").

(** A backend that answers every request with the same body. *)
Definition answering {A : Type} (body : A) : Http.Transport A := fun _ => inl body.

(** A dashboard that already shows data and has just started a reload. *)
Definition reloading_dashboard : DashboardComponent.t :=
  DashboardComponent.loadDashboard_begin
    (DashboardComponent.mk (Some statistics) (Some autoscaleStatus) (Some config)
                           false None).

(** The decisions view with 25 selected as the result limit. *)
Definition decisions_view_25 : DecisionsComponent.t :=
  DecisionsComponent.mk [] false None 25%Z.

End Samples.

(** ** The fallback chains, as predicates *)

(** A chain of preferences read by presence: the result is the primary value
    when there is one, else the fallback value when there is one, else the
    default. *)
Definition prefers (primary fallback : option float) (default result : float) : Prop :=
  match primary, fallback with
  | Some v, _ => result = v
  | None, Some w => result = w
  | None, None => result = default
  end.

(** A field is usable when it is present and its value is truthy
    (neither [0], [-0] nor [NaN]). *)
Definition usable (a : option float) : option float :=
  match a with
  | Some v => if Js.truthy v then Some v else None
  | None => None
  end.

(** The claimed fallback chains of the four resource accessors, for a given
    notion [avail] of what an available field is. *)
Definition resource_chains (avail : option float -> option float)
    (d : ScalingDecision) : Prop :=
  prefers (avail (Resources.cpu_cores <$> current_resources d))
          (avail (CurrentMetrics.cpu_usage <$> current_metrics d))
          0%float (Normalizer.getCurrentCpuCores d) /\
  prefers (avail (Resources.cpu_cores <$> proposed_resources d))
          (avail (ResourceChange.new <$> (resource_changes d ≫= ResourceChanges.cpu)))
          (Normalizer.getCurrentCpuCores d) (Normalizer.getProposedCpuCores d) /\
  prefers (avail (Resources.memory_mb <$> current_resources d))
          (avail (CurrentMetrics.memory_usage_mb <$> current_metrics d))
          0%float (Normalizer.getCurrentMemoryMb d) /\
  prefers (avail (Resources.memory_mb <$> proposed_resources d))
          (avail (ResourceChange.new <$> (resource_changes d ≫= ResourceChanges.memory)))
          (Normalizer.getCurrentMemoryMb d) (Normalizer.getProposedMemoryMb d).

(** ** The load lifecycle, as predicates *)

Definition dashboard_data (st : DashboardComponent.t)
    : option Statistics.t * option AutoscaleStatus.t * option Config.t :=
  (DashboardComponent.statistics st, DashboardComponent.autoscaleStatus st,
   DashboardComponent.config st).

(** The failure rule of the lifecycle for one subscription of a view: when
    the call fails, the state the callback leaves holds an error string, has
    [loading = false], and has the data it had. *)
Definition surfaces_failure {A S D : Type}
    (loading : S -> bool) (error : S -> option string) (data : S -> D)
    (call : Rx.Observable A A Js.Error) (observer : Rx.Observer A S) : Prop :=
  forall (transport : Http.Transport A) (e : Js.Error) (st : S),
    Rx.outcome (call transport) = inr e ->
    is_Some (error (snd (Rx.subscribe call observer transport st))) /\
    loading (snd (Rx.subscribe call observer transport st)) = false /\
    data (snd (Rx.subscribe call observer transport st)) = data st.

(** The failure rule, claimed of every load-time call of every view. *)
Definition every_load_failure_surfaces : Prop :=
  surfaces_failure PodsComponent.loading PodsComponent.error PodsComponent.pods
    ApiService.getPods PodsComponent.loadPods_observer /\
  (forall limit,
     surfaces_failure DecisionsComponent.loading DecisionsComponent.error
       DecisionsComponent.decisions
       (ApiService.getDecisions limit) DecisionsComponent.loadDecisions_observer) /\
  surfaces_failure ConfigComponent.loading ConfigComponent.error ConfigComponent.config
    ApiService.getConfig ConfigComponent.loadConfig_observer /\
  surfaces_failure DashboardComponent.loading DashboardComponent.error dashboard_data
    ApiService.getStatistics DashboardComponent.statistics_observer /\
  surfaces_failure DashboardComponent.loading DashboardComponent.error dashboard_data
    ApiService.getAutoscaleStatus DashboardComponent.autoscaleStatus_observer /\
  surfaces_failure DashboardComponent.loading DashboardComponent.error dashboard_data
    ApiService.getConfig DashboardComponent.config_observer.

(** The rule for an answer whose [success] flag is false, for one
    subscription of a view: the data is kept, [loading] is false afterwards,
    and the error field is not written. *)
Definition ignores_refusal {A S D : Type}
    (loading : S -> bool) (error : S -> option string) (data : S -> D)
    (success : A -> bool)
    (call : Rx.Observable A A Js.Error) (observer : Rx.Observer A S) : Prop :=
  forall (transport : Http.Transport A) (response : A) (st : S),
    Rx.outcome (call transport) = inl response ->
    success response = false ->
    data (snd (Rx.subscribe call observer transport st)) = data st /\
    loading (snd (Rx.subscribe call observer transport st)) = false /\
    error (snd (Rx.subscribe call observer transport st)) = error st.

(** That rule, claimed of every view whose load answer carries the flag. *)
Definition every_refusal_ignored : Prop :=
  ignores_refusal PodsComponent.loading PodsComponent.error PodsComponent.pods
    PodsResponse.success ApiService.getPods PodsComponent.loadPods_observer /\
  (forall limit,
     ignores_refusal DecisionsComponent.loading DecisionsComponent.error
       DecisionsComponent.decisions DecisionsResponse.success
       (ApiService.getDecisions limit) DecisionsComponent.loadDecisions_observer) /\
  ignores_refusal DashboardComponent.loading DashboardComponent.error dashboard_data
    StatisticsResponse.success
    ApiService.getStatistics DashboardComponent.statistics_observer.

(** ** More JavaScript values *)

Module JsValue.

(** [if (s)] on a string: only the empty string is falsy. *)
Definition string_truthy (s : string) : bool := negb (String.eqb s "").

(** Truthiness of a parsed JSON value. *)
Definition truthy (j : Json) : bool :=
  match j with
  | JNull => false
  | JBool b => b
  | JNumber n => Js.truthy n
  | JString s => string_truthy s
  | JArray _ | JObject _ => true
  end.

(** The own data property [key] of an object parsed from JSON: when a key is
    repeated in the text, the last occurrence is the one kept. *)
Fixpoint own_property (key : string) (members : list (string * Json)) : option Json :=
  match members with
  | [] => None
  | (k, v) :: rest =>
      match own_property key rest with
      | Some later => Some later
      | None => if String.eqb k key then Some v else None
      end
  end.

(** [value.success]: reading a property of [null] throws a [TypeError]
    ([None]); otherwise the result is the property's value, or [undefined]
    ([Some None]) when there is none, as for every number, string, boolean
    and array. *)
Definition success_of (value : Json) : option (option Json) :=
  match value with
  | JNull => None
  | JObject members => Some (own_property "success" members)
  | _ => Some None
  end.

End JsValue.

(** ** The other accessors of the decisions view
       ([decisions.component.ts], lines 45-56 and 87-161) *)

Module DecisionsView.

Definition getActionClass (action : string) : string :=
  if String.eqb action "INCREASE" then "badge-success"
  else if String.eqb action "DECREASE" then "badge-danger"
  else if String.eqb action "MAINTAIN" then "badge-info"
  else "badge-secondary".

Definition hasEnhancedFormat (decision : ScalingDecision) : bool :=
  match cpu_action decision, memory_action decision with
  | Some _, Some _ => true
  | _, _ => false
  end.

Definition getConfidenceObject (decision : ScalingDecision) : option CpuMemory.t :=
  match confidence decision with
  | Some (ConfPair p) => Some p
  | _ => None
  end.

Definition getCpuConfidence (decision : ScalingDecision) : float :=
  match getConfidenceObject decision with
  | Some conf => CpuMemory.cpu conf
  | None => Normalizer.getOverallConfidence decision
  end.

Definition getMemoryConfidence (decision : ScalingDecision) : float :=
  match getConfidenceObject decision with
  | Some conf => CpuMemory.memory conf
  | None => Normalizer.getOverallConfidence decision
  end.

Definition getUsageCpuCores (decision : ScalingDecision) : float :=
  Js.truthy_or (Resources.cpu_cores <$> current_usage decision)
    (Js.truthy_or (CurrentMetrics.cpu_usage <$> current_metrics decision)
       0%float).

Definition getUsageMemoryMb (decision : ScalingDecision) : float :=
  Js.truthy_or (Resources.memory_mb <$> current_usage decision)
    (Js.truthy_or (CurrentMetrics.memory_usage_mb <$> current_metrics decision)
       0%float).

Definition isApplied (decision : ScalingDecision) : bool :=
  match applied decision with
  | Some b => b
  | None =>
      match can_scale decision with
      | Some false => false
      | _ => true
      end
  end.

(** The [changes] array built by [getReason] (lines 153-159). *)
Definition reason_changes (decision : ScalingDecision) : list string :=
  let changes : list string := [] in
  let changes :=
    match cpu_action decision with
    | Some a =>
        if negb (Action_eqb a MAINTAIN)
        then (changes ++ ["CPU: " +:+ Action_to_string a])%list
        else changes
    | None => changes
    end in
  match memory_action decision with
  | Some a =>
      if negb (Action_eqb a MAINTAIN)
      then (changes ++ ["Memory: " +:+ Action_to_string a])%list
      else changes
  | None => changes
  end.

Definition getReason (decision : ScalingDecision) : string :=
  let derived :=
    match can_scale decision with
    | Some false => "Scaling not allowed"
    | _ =>
        let changes := reason_changes decision in
        if (0 <? length changes)%nat
        then String.concat ", " changes
        else "No changes needed"
    end in
  match reason decision with
  | Some r => if JsValue.string_truthy r then r else derived
  | None => derived
  end.

End DecisionsView.

(** ** Login view ([login.component.ts]) *)

Module LoginComponent.

Record t := mk {
  username : string;
  password : string;
  error : string;
  loading : bool
}.

Definition initial : t := mk "" "" "" false.

(** The component with what it is wired to: the session guard's state and
    the navigations requested from the router, oldest first. *)
Record Page := mkPage {
  component : t;
  auth : AuthService.World;
  navigations : list (list string)
}.

(** [onSubmit], run until the login observable has delivered its value.  That
    observable is built with [of] and never fails, so the [error] callback of
    lines 43-47 cannot run. *)
Definition onSubmit (page : Page) : Page :=
  let c := component page in
  if negb (JsValue.string_truthy (username c)) ||
     negb (JsValue.string_truthy (password c))
  then
    mkPage (mk (username c) (password c)
               "Please enter both username and password" (loading c))
           (auth page) (navigations page)
  else
    let c1 := mk (username c) (password c) "" true in
    let '(success, world) := AuthService.login (username c) (password c) (auth page) in
    let c2 := mk (username c1) (password c1) (error c1) false in
    if success
    then mkPage c2 world (navigations page ++ [["/dashboard"]])
    else mkPage (mk (username c2) (password c2) "Invalid credentials" (loading c2))
                world (navigations page).

End LoginComponent.

(** ** The other methods of the dashboard ([dashboard.component.ts],
       lines 85-142) *)

Module DashboardView.

(** The backend as the dashboard sees it: one transport per call it makes. *)
Record Backend := mkBackend {
  statisticsTransport : Http.Transport StatisticsResponse.t;
  statusTransport : Http.Transport AutoscaleStatus.t;
  configTransport : Http.Transport Config.t;
  startTransport : Http.Transport StartAutoscaleResponse.t;
  stopTransport : Http.Transport StopAutoscaleResponse.t;
  scaleAllTransport : Http.Transport ScaleAllResponse.t
}.

(** What a callback of the dashboard acts on: the component, the requests
    sent from inside callbacks, and the texts shown with [alert]. *)
Record Run := mkRun {
  component : DashboardComponent.t;
  requests : list Http.Request;
  alerts : list string
}.

(** [this.loadDashboard()] called from a callback. *)
Definition reload (backend : Backend) (r : Run) : Run :=
  let '(sent, st) :=
    DashboardComponent.loadDashboard (statisticsTransport backend)
      (statusTransport backend) (configTransport backend) (component r) in
  mkRun st (requests r ++ sent) (alerts r).

Definition set_error (text : string) (r : Run) : Run :=
  mkRun (DashboardComponent.mk
           (DashboardComponent.statistics (component r))
           (DashboardComponent.autoscaleStatus (component r))
           (DashboardComponent.config (component r))
           (DashboardComponent.loading (component r))
           (Some text))
        (requests r) (alerts r).

(** The observer of [toggleAutoscale] (lines 92-102), for either answer type. *)
Definition toggle_observer {A : Type} (success : A -> bool) (backend : Backend)
    : Rx.Observer A Run :=
  Rx.mkObserver
    (fun response r => if success response then reload backend r else r)
    (fun err r => set_error "Failed to toggle autoscale" r).

Definition toggleAutoscale (backend : Backend) (st : DashboardComponent.t) : Run :=
  match DashboardComponent.autoscaleStatus st with
  | None => mkRun st [] []
  | Some status =>
      let '(sent, r) :=
        if AutoscaleStatus.enabled status
        then Rx.subscribe ApiService.stopAutoscale
               (toggle_observer StopAutoscaleResponse.success backend)
               (stopTransport backend) (mkRun st [] [])
        else Rx.subscribe ApiService.startAutoscale
               (toggle_observer StartAutoscaleResponse.success backend)
               (startTransport backend) (mkRun st [] []) in
      mkRun (component r) (sent ++ requests r) (alerts r)
  end.

(** [scaleAllNow] (lines 105-118); [number_to_string] renders a number inside
    a template literal. *)
Definition scaleAll_observer (number_to_string : float -> string) (backend : Backend)
    : Rx.Observer ScaleAllResponse.t Run :=
  Rx.mkObserver
    (fun response r =>
       if ScaleAllResponse.success response
       then reload backend
              (mkRun (component r) (requests r)
                 (alerts r ++
                  ["Processed " +:+ number_to_string (ScaleAllResponse.processed response)
                   +:+ " pods successfully!"]))
       else r)
    (fun err r => set_error "Failed to scale pods" r).

Definition scaleAllNow (number_to_string : float -> string) (backend : Backend)
    (st : DashboardComponent.t) : Run :=
  let '(sent, r) :=
    Rx.subscribe ApiService.scaleAllPods (scaleAll_observer number_to_string backend)
      (scaleAllTransport backend) (mkRun st [] []) in
  mkRun (component r) (sent ++ requests r) (alerts r).

Definition count_of (counts : ActionCounts.t) (action : Action) : float :=
  match action with
  | DECREASE => ActionCounts.DECREASE counts
  | MAINTAIN => ActionCounts.MAINTAIN counts
  | INCREASE => ActionCounts.INCREASE counts
  end.

Definition getCpuActionCount (st : DashboardComponent.t) (action : Action) : float :=
  match DashboardComponent.statistics st with
  | None => 0%float
  | Some s =>
      Js.truthy_or
        (Some (count_of (ActionDistribution.cpu_actions
                           (Statistics.action_distribution s)) action))
        0%float
  end.

Definition getMemoryActionCount (st : DashboardComponent.t) (action : Action) : float :=
  match DashboardComponent.statistics st with
  | None => 0%float
  | Some s =>
      Js.truthy_or
        (Some (count_of (ActionDistribution.memory_actions
                           (Statistics.action_distribution s)) action))
        0%float
  end.

(** [round] stands for [Math.round]. *)
Definition getCpuActionPercentage (round : float -> float)
    (st : DashboardComponent.t) (action : Action) : float :=
  match DashboardComponent.statistics st with
  | None => 0%float
  | Some _ =>
      let total :=
        (getCpuActionCount st DECREASE + getCpuActionCount st MAINTAIN +
         getCpuActionCount st INCREASE)%float in
      if PrimFloat.eqb total 0%float then 0%float
      else round ((getCpuActionCount st action / total) * 100)%float
  end.

Definition getMemoryActionPercentage (round : float -> float)
    (st : DashboardComponent.t) (action : Action) : float :=
  match DashboardComponent.statistics st with
  | None => 0%float
  | Some _ =>
      let total :=
        (getMemoryActionCount st DECREASE + getMemoryActionCount st MAINTAIN +
         getMemoryActionCount st INCREASE)%float in
      if PrimFloat.eqb total 0%float then 0%float
      else round ((getMemoryActionCount st action / total) * 100)%float
  end.

End DashboardView.

(** ** The other methods of the pods view ([pods.component.ts], lines 44-86) *)

From Stdlib Require Import Ascii.

Module Text.

(** Whether the character [/] occurs in a string. *)
Fixpoint has_slash (s : string) : bool :=
  match s with
  | EmptyString => false
  | String c rest => Ascii.eqb c "/"%char || has_slash rest
  end.

End Text.

Module PodsView.

Inductive Dialog :=
| Confirm (text : string)
| Alert (text : string).

(** What a callback of the pods view acts on: the component and the dialogs
    shown so far, oldest first. *)
Record Run := mkRun {
  component : PodsComponent.t;
  dialogs : list Dialog
}.

Definition getPodKey (pod : Pod.t) : string :=
  Pod.namespace pod +:+ "/" +:+ Pod.name pod.

Definition isScaling (st : PodsComponent.t) (pod : Pod.t) : bool :=
  match PodsComponent.scalingPod st with
  | Some key => String.eqb key (getPodKey pod)
  | None => false
  end.

Definition set_scalingPod (value : option string) (r : Run) : Run :=
  mkRun (PodsComponent.mk (PodsComponent.pods (component r))
                          (PodsComponent.loading (component r))
                          (PodsComponent.error (component r)) value)
        (dialogs r).

Definition alert (text : string) (r : Run) : Run :=
  mkRun (component r) (dialogs r ++ [Alert text]).

(** The [confidence] constant of lines 52-56. *)
Definition result_confidence (result : ScalingDecision) : float :=
  match confidence result with
  | Some (ConfNumber n) => n
  | Some (ConfPair p) => ((CpuMemory.cpu p + CpuMemory.memory p) / 2)%float
  | None => 0%float
  end.

Definition action_text (result : ScalingDecision) : string :=
  match action result with
  | Some a => Action_to_string a
  | None =>
      match cpu_action result, memory_action result with
      | Some c, Some m =>
          "CPU: " +:+ Action_to_string c +:+ ", Memory: " +:+ Action_to_string m
      | _, _ => "Unknown"
      end
  end.

(** [a || rest] on possibly missing numbers, before the final ['N/A']. *)
Definition or_number (a rest : option float) : option float :=
  match a with
  | Some v => if Js.truthy v then Some v else rest
  | None => rest
  end.

(** [`${a || b || 'N/A'}`]; [number_to_string] renders a number inside a
    template literal. *)
Definition number_or_na (number_to_string : float -> string)
    (a b : option float) : string :=
  match or_number a (or_number b None) with
  | Some v => number_to_string v
  | None => "N/A"
  end.

Definition applied_text (result : ScalingDecision) : string :=
  match applied result with
  | Some b => if b then "Yes" else "No"
  | None =>
      match can_scale result with
      | Some false => "No"
      | _ => "Yes"
      end
  end.

Definition reason_text (result : ScalingDecision) : string :=
  let fallback :=
    match can_scale result with
    | Some false => "Scaling not allowed"
    | _ => "Auto-scaling decision"
    end in
  match reason result with
  | Some r => if JsValue.string_truthy r then r else fallback
  | None => fallback
  end.

(** The text of the alert of lines 58-68; [toFixed1] stands for
    [Number.prototype.toFixed(1)]. *)
Definition result_text (number_to_string toFixed1 : float -> string)
    (result : ScalingDecision) : string :=
  "Scaling Decision:" +:+ ApiService.newline +:+ ApiService.newline +:+
  "Action: " +:+ action_text result +:+ ApiService.newline +:+
  "Confidence: " +:+ toFixed1 (result_confidence result * 100)%float +:+ "%" +:+
    ApiService.newline +:+
  "Current CPU: " +:+
    number_or_na number_to_string
      (Resources.cpu_cores <$> current_resources result)
      (CurrentMetrics.cpu_usage <$> current_metrics result) +:+ " cores" +:+
    ApiService.newline +:+
  "Proposed CPU: " +:+
    number_or_na number_to_string
      (Resources.cpu_cores <$> proposed_resources result)
      (ResourceChange.new <$> (resource_changes result ≫= ResourceChanges.cpu)) +:+
    " cores" +:+ ApiService.newline +:+
  "Current Memory: " +:+
    number_or_na number_to_string
      (Resources.memory_mb <$> current_resources result)
      (CurrentMetrics.memory_usage_mb <$> current_metrics result) +:+ " MB" +:+
    ApiService.newline +:+
  "Proposed Memory: " +:+
    number_or_na number_to_string
      (Resources.memory_mb <$> proposed_resources result)
      (ResourceChange.new <$> (resource_changes result ≫= ResourceChanges.memory)) +:+
    " MB" +:+ ApiService.newline +:+
  "Applied: " +:+ applied_text result +:+ ApiService.newline +:+
  "Reason: " +:+ reason_text result.

Definition scalePod_observer (number_to_string toFixed1 : float -> string)
    : Rx.Observer ScalePodResponse.t Run :=
  Rx.mkObserver
    (fun response r =>
       let r1 :=
         if ScalePodResponse.success response
         then alert (result_text number_to_string toFixed1
                       (ScalePodResponse.result response)) r
         else r in
       set_scalingPod None r1)
    (fun err r =>
       set_scalingPod None (alert ("Failed to scale pod: " +:+ Js.message err) r)).

(** The state while the request is in flight (line 46). *)
Definition scalePod_begin (pod : Pod.t) (r : Run) : Run :=
  set_scalingPod (Some (Pod.namespace pod +:+ "/" +:+ Pod.name pod)) r.

(** [scalePod(pod)]; [confirmed] is the user's answer to the [confirm]
    dialog. *)
Definition scalePod (number_to_string toFixed1 : float -> string)
    (confirmed : bool) (transport : Http.Transport ScalePodResponse.t)
    (pod : Pod.t) (st : PodsComponent.t) : list Http.Request * Run :=
  let asked :=
    mkRun st [Confirm ("Scale pod " +:+ Pod.name pod +:+ " in namespace " +:+
                       Pod.namespace pod +:+ "?")] in
  if confirmed
  then Rx.subscribe (ApiService.scalePod (Pod.namespace pod) (Pod.name pod))
         (scalePod_observer number_to_string toFixed1) transport
         (scalePod_begin pod asked)
  else ([], asked).

End PodsView.

(** ** Saving the configuration ([config.component.ts], lines 44-80) *)

Module ConfigView.

(** A pending [setTimeout]: its delay in milliseconds and what it does to
    the component when it fires. *)
Record Timer := mkTimer {
  delay : Z;
  fire : ConfigComponent.t -> ConfigComponent.t
}.

(** What a callback of the config view acts on: the component, the timers it
    has started, and the exceptions that escaped a callback. *)
Record Run := mkRun {
  component : ConfigComponent.t;
  timers : list Timer;
  uncaught : list string
}.

(** The [updates] object of lines 51-58. *)
Definition updates_of (config : Config.t) : PartialConfig.t := {|
  PartialConfig.model_path := None;
  PartialConfig.state_dim := None;
  PartialConfig.action_dim := None;
  PartialConfig.history_window := None;
  PartialConfig.min_cpu := None;
  PartialConfig.max_cpu := None;
  PartialConfig.min_memory := None;
  PartialConfig.max_memory := None;
  PartialConfig.scale_factor := Some (Config.scale_factor config);
  PartialConfig.dry_run := Some (Config.dry_run config);
  PartialConfig.in_cluster := None;
  PartialConfig.namespaces := Some (Config.namespaces config);
  PartialConfig.auto_scale_enabled := Some (Config.auto_scale_enabled config);
  PartialConfig.auto_scale_interval := Some (Config.auto_scale_interval config);
  PartialConfig.scaling_cooldown := Some (Config.scaling_cooldown config)
|}.

Definition set_success (value : option string) (c : ConfigComponent.t)
    : ConfigComponent.t :=
  ConfigComponent.mk (ConfigComponent.config c) (ConfigComponent.loading c)
    (ConfigComponent.error c) value (ConfigComponent.saving c).

Definition set_saving (value : bool) (c : ConfigComponent.t) : ConfigComponent.t :=
  ConfigComponent.mk (ConfigComponent.config c) (ConfigComponent.loading c)
    (ConfigComponent.error c) (ConfigComponent.success c) value.

Definition set_error (value : option string) (c : ConfigComponent.t)
    : ConfigComponent.t :=
  ConfigComponent.mk (ConfigComponent.config c) (ConfigComponent.loading c)
    value (ConfigComponent.success c) (ConfigComponent.saving c).

(** Lines 61-72.  The answer is typed [any]: reading [response.success] of a
    [null] answer throws, and the callback stops there. *)
Definition saveConfig_observer : Rx.Observer Json Run :=
  Rx.mkObserver
    (fun response r =>
       match JsValue.success_of response with
       | None => mkRun (component r) (timers r) (uncaught r ++ ["TypeError"])
       | Some flag =>
           let r1 :=
             if match flag with Some v => JsValue.truthy v | None => false end
             then mkRun (set_success (Some "Configuration updated successfully!")
                                     (component r))
                        (timers r ++ [mkTimer 3000 (set_success None)])
                        (uncaught r)
             else r in
           mkRun (set_saving false (component r1)) (timers r1) (uncaught r1)
       end)
    (fun err r =>
       mkRun (set_saving false
                (set_error (Some "Failed to update configuration") (component r)))
             (timers r) (uncaught r)).

Definition saveConfig (transport : Http.Transport Json) (st : ConfigComponent.t)
    : list Http.Request * Run :=
  match ConfigComponent.config st with
  | None => ([], mkRun st [] [])
  | Some config =>
      let st1 := set_success None (set_error None (set_saving true st)) in
      Rx.subscribe (ApiService.updateConfig (updates_of config)) saveConfig_observer
        transport (mkRun st1 [] [])
  end.

(** [resetConfig]; [confirmed] is the user's answer to the [confirm] dialog. *)
Definition resetConfig (confirmed : bool) (transport : Http.Transport Config.t)
    (st : ConfigComponent.t) : list Http.Request * ConfigComponent.t :=
  if confirmed then ConfigComponent.loadConfig transport st else ([], st).

End ConfigView.

(** ** The dashboard's periodic refresh ([dashboard.component.ts],
       lines 26-44) *)

Module DashboardLifecycle.

(** The component with its [refreshSubscription]: [refreshing] holds while
    the subscription made by [ngOnInit] is open. *)
Record Live := mkLive {
  component : DashboardComponent.t;
  refreshing : bool
}.

Definition ngOnInit
    (statisticsTransport : Http.Transport StatisticsResponse.t)
    (statusTransport : Http.Transport AutoscaleStatus.t)
    (configTransport : Http.Transport Config.t)
    (st : DashboardComponent.t) : list Http.Request * Live :=
  let '(sent, st1) :=
    DashboardComponent.loadDashboard statisticsTransport statusTransport
      configTransport st in
  (sent, mkLive st1 true).

(** One period of [interval(10000)], the statistics call that [switchMap]
    starts answered by [transport] before the next period.  An error
    notification ends the subscription, as it ends every observable. *)
Definition tick (transport : Http.Transport StatisticsResponse.t) (live : Live)
    : list Http.Request * Live :=
  if refreshing live
  then
    let e := ApiService.getStatistics transport in
    (Rx.sent e,
     mkLive (Rx.notify DashboardComponent.refresh_observer (Rx.outcome e)
               (component live))
            (match Rx.outcome e with inl _ => true | inr _ => false end))
  else ([], live).

Definition ngOnDestroy (live : Live) : Live := mkLive (component live) false.

(** Successive periods, each with the backend as it answers at that time. *)
Fixpoint ticks (transports : list (Http.Transport StatisticsResponse.t)) (live : Live)
    : list Http.Request * Live :=
  match transports with
  | [] => ([], live)
  | transport :: rest =>
      let '(sent1, live1) := tick transport live in
      let '(sent2, live2) := ticks rest live1 in
      ((sent1 ++ sent2)%list, live2)
  end.

End DashboardLifecycle.

(** ** Further sample values *)

Module MoreSamples.

(** An enhanced-shape decision that lost its [memory_action]: the backend
    asks for more CPU and says nothing about memory. *)
Definition cpu_only : ScalingDecision := {|
  pod := None; namespace := "default"; pod_name := "web-0";
  action := None; action_index := None;
  confidence := None; q_values := None;
  current_resources := None; proposed_resources := None;
  current_usage := None; timestamp := "2025-01-01T00:00:00Z";
  applied := None; reason := Some "";
  can_scale := None; cpu_action := Some INCREASE; memory_action := None;
  current_metrics := None; future_predictions := None;
  resource_changes := None; utilization := None
|}.

(** Statistics of a scaler that has not decided anything yet. *)
Definition no_decisions_yet : Statistics.t := {|
  Statistics.action_distribution :=
    ActionDistribution.mk (ActionCounts.mk 0%float 0%float 0%float)
                          (ActionCounts.mk 0%float 0%float 0%float);
  Statistics.model_performance := ModelPerformance.mk 0%float 0%float "DQN";
  Statistics.overview := Overview.mk 0%float 0%float 0%float 0%float;
  Statistics.resource_utilization := ResourceUtilization.mk 0%float 0%float;
  Statistics.system_status := SystemStatus.mk 5%float true true 1.5%float;
  Statistics.timestamp := "2025-01-01T00:00:00Z"
|}.

Definition fresh_dashboard : DashboardComponent.t :=
  DashboardComponent.mk (Some no_decisions_yet) (Some Samples.autoscaleStatus)
                        (Some Samples.config) false None.

(** A pod of the same name in another namespace. *)
Definition staging_pod : Pod.t := Pod.mk "web-0" "staging" "uid-2" ∅ None.

(** A config view showing a loaded configuration. *)
Definition loaded_config_view : ConfigComponent.t :=
  ConfigComponent.mk (Some Samples.config) false None None false.

(** An enhanced-shape decision the backend was not allowed to apply. *)
Definition blocked : ScalingDecision := {|
  pod := None; namespace := "default"; pod_name := "web-0";
  action := None; action_index := None;
  confidence := None; q_values := None;
  current_resources := None; proposed_resources := None;
  current_usage := None; timestamp := "2025-01-01T00:00:00Z";
  applied := None; reason := None;
  can_scale := Some false; cpu_action := Some INCREASE; memory_action := Some MAINTAIN;
  current_metrics := None; future_predictions := None;
  resource_changes := None; utilization := None
|}.

End MoreSamples.

(** * Theorems *)

(** ** Decision normaliser *)

Section NormalizerFacts.

Import Normalizer.

Lemma Action_eqb_eq (a b : Action) : Action_eqb a b = true <-> a = b.
Proof. destruct a, b; simpl; split; congruence. Qed.

(** C1: a present [action] is the overall action; otherwise, when both
    per-resource actions are present, the overall action is INCREASE if either
    is INCREASE, else DECREASE if either is DECREASE, else MAINTAIN. *)
Theorem overall_action_rule (d : ScalingDecision) :
  (forall a, action d = Some a -> getOverallAction d = Action_to_string a) /\
  (forall c m,
      action d = None -> cpu_action d = Some c -> memory_action d = Some m ->
      (c = INCREASE \/ m = INCREASE -> getOverallAction d = "INCREASE") /\
      (c <> INCREASE -> m <> INCREASE -> c = DECREASE \/ m = DECREASE ->
       getOverallAction d = "DECREASE") /\
      (c <> INCREASE -> m <> INCREASE -> c <> DECREASE -> m <> DECREASE ->
       getOverallAction d = "MAINTAIN")).
Proof.
  unfold getOverallAction. split.
  - intros a ->. reflexivity.
  - intros c m -> -> ->. repeat split.
    + intros [-> | ->]; [reflexivity | destruct c; reflexivity].
    + intros Hc Hm [-> | ->]; [destruct m | destruct c]; simpl; congruence.
    + intros Hc Hm Hc' Hm'. destruct c, m; simpl; congruence.
Qed.

Example overall_action_disagreement :
  getOverallAction Samples.enhanced = "INCREASE" /\
  getOverallAction Samples.legacy = "DECREASE".
Proof. split; reflexivity. Qed.

(** C2: a plain numeric confidence is returned as it is, a cpu/memory pair
    yields the mean of its two components (computed in double precision, as
    the source does), and a missing confidence yields 0. *)
Theorem overall_confidence_rule (d : ScalingDecision) :
  (forall n, confidence d = Some (ConfNumber n) -> getOverallConfidence d = n) /\
  (forall a b, confidence d = Some (ConfPair (CpuMemory.mk a b)) ->
               getOverallConfidence d = ((a + b) / 2)%float) /\
  (confidence d = None -> getOverallConfidence d = 0%float).
Proof.
  unfold getOverallConfidence.
  repeat split; [intros n -> | intros a b -> | intros ->]; reflexivity.
Qed.

Example overall_confidence_samples :
  getOverallConfidence Samples.legacy = 0.75%float /\
  getOverallConfidence Samples.enhanced = 0.375%float.
Proof. split; vm_compute; reflexivity. Qed.

(** Two doubles that compare different are different values. *)
Lemma float_neq_of_eqb (x y : float) : PrimFloat.eqb x y = false ->
  PrimFloat.eqb y y = true -> x <> y.
Proof. intros Hxy Hyy ->. congruence. Qed.

Lemma prefers_usable (a b : option float) (k : float) :
  prefers (usable a) (usable b) k (Js.truthy_or a (Js.truthy_or b k)).
Proof.
  unfold prefers, usable, Js.truthy_or.
  destruct a as [v|], b as [w|]; try destruct (Js.truthy v);
    try destruct (Js.truthy w); reflexivity.
Qed.

(** C3, as amended: each accessor prefers its first field, falls back to its
    second and then to its default (0 for the current values, the normalised
    current value for the proposed ones), where a field counts only when it
    is present and truthy: a present 0, -0 or NaN is passed over like a
    missing field. *)
Theorem resource_chains_usable (d : ScalingDecision) : resource_chains usable d.
Proof.
  unfold resource_chains, getCurrentCpuCores, getProposedCpuCores,
    getCurrentMemoryMb, getProposedMemoryMb.
  repeat split; apply prefers_usable.
Qed.

Example zero_proposal_accessors :
  getProposedCpuCores Samples.zero_proposal = 2%float /\
  getProposedMemoryMb Samples.zero_proposal = 512%float /\
  getProposedCpuCores Samples.legacy = 1.5%float /\
  getCurrentCpuCores Samples.enhanced = 0.5%float.
Proof. repeat split; vm_compute; reflexivity. Qed.

(** C3, as stated, fails: with "available" read as "present", a decision that
    proposes 0 CPU cores for a pod holding 2 cores is reported as proposing 2
    cores, the current value, not the proposed one. *)
Lemma resource_chains_present_fails :
  ~ (forall d : ScalingDecision, resource_chains (fun a => a) d).
Proof.
  intros H. destruct (H Samples.zero_proposal) as (_ & Hp & _).
  vm_compute in Hp. revert Hp.
  apply float_neq_of_eqb; vm_compute; reflexivity.
Qed.

Lemma truthy_or_none (k : float) : Js.truthy_or None k = k.
Proof. reflexivity. Qed.

Lemma truthy_or_truthy (v k : float) :
  Js.truthy v = true -> Js.truthy_or (Some v) k = v.
Proof. unfold Js.truthy_or. intros ->. reflexivity. Qed.

(** [v || 0] is numerically [v] for every number but [NaN]. *)
Lemma truthy_or_zero_num_eq (v : float) :
  PrimFloat.is_nan v = false ->
  Js.num_eq v (Js.truthy_or (Some v) 0%float) = true.
Proof.
  unfold Js.truthy_or, Js.truthy, Js.num_eq, PrimFloat.is_nan, PrimFloat.is_zero.
  intros Hnan. apply negb_false_iff in Hnan. rewrite Hnan. simpl.
  rewrite orb_false_r. destruct (PrimFloat.eqb v PrimFloat.zero) eqn:Hz; simpl.
  - exact Hz.
  - exact Hnan.
Qed.

Lemma has_changes_iff (c : option ResourceChange.t) :
  match c with
  | Some r => Js.strict_ne_zero (ResourceChange.change_percent r)
  | None => false
  end = true <->
  exists r, c = Some r /\ Js.num_eq (ResourceChange.change_percent r) 0%float = false.
Proof.
  unfold Js.strict_ne_zero, Js.num_eq. split.
  - destruct c as [r|]; [| discriminate]. intros H.
    exists r. split; [reflexivity | now apply negb_true_iff].
  - intros (r & -> & H). now apply negb_true_iff.
Qed.

(** C4: the change percent of a resource is read from
    [resource_changes.<resource>.change_percent] (any truthy value is returned
    as it is, and the result is numerically the field for every number) and
    is 0 when the entry is absent; "has changes" holds exactly when the entry
    is present with a change percent different from 0, so an entry with
    [change_percent = 0] has no changes. *)
Theorem change_percent_rule (d : ScalingDecision) :
  (resource_changes d ≫= ResourceChanges.cpu = None -> getCpuChangePercent d = 0%float) /\
  (resource_changes d ≫= ResourceChanges.memory = None ->
   getMemoryChangePercent d = 0%float) /\
  (forall r, resource_changes d ≫= ResourceChanges.cpu = Some r ->
     (Js.truthy (ResourceChange.change_percent r) = true ->
      getCpuChangePercent d = ResourceChange.change_percent r) /\
     (PrimFloat.is_nan (ResourceChange.change_percent r) = false ->
      Js.num_eq (ResourceChange.change_percent r) (getCpuChangePercent d) = true) /\
     (ResourceChange.change_percent r = 0%float -> hasCpuChanges d = false)) /\
  (forall r, resource_changes d ≫= ResourceChanges.memory = Some r ->
     (Js.truthy (ResourceChange.change_percent r) = true ->
      getMemoryChangePercent d = ResourceChange.change_percent r) /\
     (PrimFloat.is_nan (ResourceChange.change_percent r) = false ->
      Js.num_eq (ResourceChange.change_percent r) (getMemoryChangePercent d) = true) /\
     (ResourceChange.change_percent r = 0%float -> hasMemoryChanges d = false)) /\
  (hasCpuChanges d = true <->
   exists r, resource_changes d ≫= ResourceChanges.cpu = Some r /\
             Js.num_eq (ResourceChange.change_percent r) 0%float = false) /\
  (hasMemoryChanges d = true <->
   exists r, resource_changes d ≫= ResourceChanges.memory = Some r /\
             Js.num_eq (ResourceChange.change_percent r) 0%float = false).
Proof.
  unfold getCpuChangePercent, getMemoryChangePercent, hasCpuChanges, hasMemoryChanges.
  split; [intros ->; reflexivity |].
  split; [intros ->; reflexivity |].
  split; [intros r ->; simpl; repeat split |].
  { apply truthy_or_truthy. }
  { apply truthy_or_zero_num_eq. }
  { intros ->. reflexivity. }
  split; [intros r ->; simpl; repeat split |].
  { apply truthy_or_truthy. }
  { apply truthy_or_zero_num_eq. }
  { intros ->. reflexivity. }
  split; apply has_changes_iff.
Qed.

Example zero_cpu_change_is_no_change :
  hasCpuChanges Samples.enhanced = false /\
  hasMemoryChanges Samples.enhanced = true /\
  getCpuChangePercent Samples.enhanced = 0%float /\
  getMemoryChangePercent Samples.enhanced = 25%float /\
  hasCpuChanges Samples.legacy = false /\
  getCpuChangePercent Samples.legacy = 0%float.
Proof. repeat split; vm_compute; reflexivity. Qed.

End NormalizerFacts.

(** ** Gateway client *)

Section GatewayFacts.

Import ApiService.

Lemma perform_unfold {A : Type} (op : Operation A) :
  perform op = Rx.catchError handleError (Rx.request (request_of op)).
Proof. destruct op; reflexivity. Qed.

Lemma call_sends_once {A : Type} (req : Http.Request) (transport : Http.Transport A) :
  Rx.sent (Rx.catchError handleError (Rx.request req) transport) = [req].
Proof.
  unfold Rx.catchError, Rx.request, handleError, Rx.throwError. simpl.
  destruct (transport req); simpl; reflexivity.
Qed.

Lemma call_answered {A : Type} (req : Http.Request) (transport : Http.Transport A) (a : A) :
  transport req = inl a ->
  Rx.catchError handleError (Rx.request req) transport = Rx.mkEmission [req] (inl a).
Proof.
  intros H. unfold Rx.catchError, Rx.request. simpl. rewrite H. reflexivity.
Qed.

Lemma call_failed {A : Type} (req : Http.Request) (transport : Http.Transport A)
    (e : Http.ErrorResponse) :
  transport req = inr e ->
  Rx.catchError handleError (Rx.request req) transport =
  Rx.mkEmission [req] (inr (Js.mkError (errorMessage e))).
Proof.
  intros H. unfold Rx.catchError, Rx.request, handleError, Rx.throwError.
  simpl. rewrite H. reflexivity.
Qed.

Lemma errorMessage_starts_with_Error (e : Http.ErrorResponse) :
  String.prefix "Error" (errorMessage e) = true.
Proof. unfold errorMessage. destruct (Http.error e); reflexivity. Qed.

(** C5: every operation of the client sends its request exactly once,
    whatever the answer (there is no retry); when the request fails, for any
    [HttpErrorResponse] whatsoever, the operation ends with an error
    notification carrying one [Error] object whose message is the text built
    by [handleError], which starts with "Error"; an answer is passed on
    unchanged. *)
Theorem uniform_error_policy {A : Type} (op : Operation A) (transport : Http.Transport A) :
  Rx.sent (perform op transport) = [request_of op] /\
  (forall e : Http.ErrorResponse,
      transport (request_of op) = inr e ->
      Rx.outcome (perform op transport) = inr (Js.mkError (errorMessage e)) /\
      String.prefix "Error" (Js.message (Js.mkError (errorMessage e))) = true) /\
  (forall a : A,
      transport (request_of op) = inl a ->
      Rx.outcome (perform op transport) = inl a).
Proof.
  rewrite perform_unfold. split; [apply call_sends_once |]. split.
  - intros e H. rewrite (call_failed _ _ _ H). simpl.
    split; [reflexivity | apply errorMessage_starts_with_Error].
  - intros a H. rewrite (call_answered _ _ _ H). reflexivity.
Qed.

Example error_messages :
  errorMessage (Http.mkErrorResponse (Http.ErrorEvent "Failed to fetch") 0 "") =
    "Error: Failed to fetch" /\
  errorMessage (Http.mkErrorResponse Http.OtherPayload 503 "Service Unavailable") =
    "Error Code: 503" +:+ newline +:+ "Message: Service Unavailable" /\
  errorMessage (Http.mkErrorResponse Http.OtherPayload 200 "Http failure during parsing") =
    "Error Code: 200" +:+ newline +:+ "Message: Http failure during parsing".
Proof. repeat split; vm_compute; reflexivity. Qed.

End GatewayFacts.

(** ** Session guard *)

Section SessionFacts.

Import AuthService.

Lemma login_value (username password : string) (w : World) :
  fst (login username password w) =
  String.eqb username "admin" && String.eqb password "admin".
Proof. reflexivity. Qed.

Lemma login_accepts_iff (username password : string) (w : World) :
  fst (login username password w) = true <->
  username = "admin" /\ password = "admin".
Proof.
  rewrite login_value, andb_true_iff, !String.eqb_eq. reflexivity.
Qed.

Lemma login_rejected_world (username password : string) (w : World) :
  fst (login username password w) = false -> snd (login username password w) = w.
Proof.
  rewrite login_value. unfold login, tap, delay, of_value. simpl.
  intros ->. reflexivity.
Qed.

Lemma login_accepted_world (username password : string) (w : World) :
  fst (login username password w) = true ->
  snd (login username password w) =
  subject_next true (setItem "username" username (setItem "isAuthenticated" "true" w)).
Proof.
  rewrite login_value. unfold login, tap, delay, of_value. simpl.
  intros ->. reflexivity.
Qed.

(** C6: login resolves to true exactly for the pair ("admin", "admin"); a
    successful login leaves the flag and the username in storage (so that a
    restart of the service restores an authenticated session) and signals
    [true]; an unsuccessful login leaves the whole state, storage included,
    as it was. *)
Theorem login_rule (username password : string) (w : World) :
  (fst (login username password w) = true <->
   username = "admin" /\ password = "admin") /\
  (fst (login username password w) = true ->
   localStorage (snd (login username password w)) !! "isAuthenticated" = Some "true" /\
   localStorage (snd (login username password w)) !! "username" = Some username /\
   isAuthenticated (snd (login username password w)) = true /\
   isAuthenticated (create (localStorage (snd (login username password w)))) = true) /\
  (fst (login username password w) = false ->
   snd (login username password w) = w).
Proof.
  split; [apply login_accepts_iff |]. split; [| apply login_rejected_world].
  intros H. rewrite (login_accepted_world _ _ _ H).
  unfold isAuthenticated, create, getStoredAuthState, subject_next, setItem. simpl.
  assert (Hflag : <["username":=username]>
                    (<["isAuthenticated":="true"]> (localStorage w))
                  !! "isAuthenticated" = Some "true").
  { rewrite lookup_insert_ne by discriminate. apply lookup_insert_eq. }
  rewrite Hflag, lookup_insert_eq. repeat split.
Qed.

Example login_samples :
  fst (login "admin" "admin" (create ∅)) = true /\
  getUsername (snd (login "admin" "admin" (create ∅))) = Some "admin" /\
  fst (login "admin" "Admin" (create ∅)) = false /\
  fst (login "root" "admin" (create ∅)) = false /\
  snd (login "root" "admin" (create ∅)) = create ∅.
Proof. repeat split; vm_compute; reflexivity. Qed.

Lemma step_authenticates (w : World) (ev : Event) :
  isAuthenticated w = false -> isAuthenticated (step w ev) = true ->
  ev = Login "admin" "admin".
Proof.
  intros Hw Hs. destruct ev as [username password |]; cbn [step] in Hs.
  - destruct (fst (login username password w)) eqn:Hok.
    + apply login_accepts_iff in Hok as [-> ->]. reflexivity.
    + rewrite (login_rejected_world _ _ _ Hok) in Hs. congruence.
  - discriminate.
Qed.

Lemma step_deauthenticates (w : World) (ev : Event) :
  isAuthenticated w = true -> isAuthenticated (step w ev) = false -> ev = Logout.
Proof.
  intros Hw Hs. destruct ev as [username password |]; [| reflexivity].
  cbn [step] in Hs. destruct (fst (login username password w)) eqn:Hok.
  - rewrite (login_accepted_world _ _ _ Hok) in Hs. discriminate.
  - rewrite (login_rejected_world _ _ _ Hok) in Hs. congruence.
Qed.

Lemma run_authenticated (events : list Event) (w : World) :
  isAuthenticated (run events w) = true ->
  isAuthenticated w = true \/ In (Login "admin" "admin") events.
Proof.
  revert w. induction events as [| ev events IH]; intros w H; simpl in *.
  - left. exact H.
  - destruct (IH _ H) as [Hs | Hin]; [| right; right; exact Hin].
    destruct (isAuthenticated w) eqn:Hw; [left; reflexivity |].
    right. left. exact (step_authenticates _ _ Hw Hs).
Qed.

Lemma run_unauthenticated (events : list Event) (w : World) :
  isAuthenticated (run events w) = false ->
  isAuthenticated w = false \/ In Logout events.
Proof.
  revert w. induction events as [| ev events IH]; intros w H; simpl in *.
  - left. exact H.
  - destruct (IH _ H) as [Hs | Hin]; [| right; right; exact Hin].
    destruct (isAuthenticated w) eqn:Hw; [| left; reflexivity].
    right. left. exact (step_deauthenticates _ _ Hw Hs).
Qed.

(** C9: a call turns the session authenticated only if it is a login with the
    accepted credentials, and turns it unauthenticated only if it is a logout,
    for single calls and for any sequence of calls; a rejected login changes
    nothing at all (no storage write, no signal), so an authenticated session
    stays authenticated in memory and in storage. *)
Theorem session_transitions :
  (forall w ev, isAuthenticated w = false -> isAuthenticated (step w ev) = true ->
                ev = Login "admin" "admin") /\
  (forall w ev, isAuthenticated w = true -> isAuthenticated (step w ev) = false ->
                ev = Logout) /\
  (forall events w, isAuthenticated w = false ->
                    isAuthenticated (run events w) = true ->
                    In (Login "admin" "admin") events) /\
  (forall events w, isAuthenticated w = true ->
                    isAuthenticated (run events w) = false ->
                    In Logout events) /\
  (forall username password w,
      fst (login username password w) = false ->
      step w (Login username password) = w /\
      emitted (step w (Login username password)) = emitted w /\
      localStorage (step w (Login username password)) = localStorage w /\
      (isAuthenticated w = true ->
       isAuthenticated (step w (Login username password)) = true)).
Proof.
  split; [exact step_authenticates |]. split; [exact step_deauthenticates |].
  split; [| split].
  - intros events w Hw H. destruct (run_authenticated _ _ H); [congruence | assumption].
  - intros events w Hw H. destruct (run_unauthenticated _ _ H); [congruence | assumption].
  - intros username password w H. cbn [step].
    rewrite (login_rejected_world _ _ _ H). repeat split. intros Hw. exact Hw.
Qed.

Example failed_login_keeps_session :
  isAuthenticated (run [Login "admin" "admin"; Login "admin" "wrong"] (create ∅)) = true /\
  getStoredAuthState
    (localStorage (run [Login "admin" "admin"; Login "admin" "wrong"] (create ∅))) = true /\
  emitted (run [Login "admin" "admin"; Login "admin" "wrong"] (create ∅)) = [true] /\
  isAuthenticated (run [Login "admin" "admin"; Logout] (create ∅)) = false /\
  getUsername (run [Login "admin" "admin"; Logout] (create ∅)) = None.
Proof. repeat split; vm_compute; reflexivity. Qed.

End SessionFacts.

(** ** View controllers *)

Section LifecycleFacts.

Lemma subscribe_failed {T A S : Type} (call : Rx.Observable T A Js.Error)
    (observer : Rx.Observer A S) (transport : Http.Transport T) (e : Js.Error) (st : S) :
  Rx.outcome (call transport) = inr e ->
  snd (Rx.subscribe call observer transport st) = Rx.error observer e st.
Proof. unfold Rx.subscribe. simpl. intros ->. reflexivity. Qed.

Lemma subscribe_answered {T A S : Type} (call : Rx.Observable T A Js.Error)
    (observer : Rx.Observer A S) (transport : Http.Transport T) (a : A) (st : S) :
  Rx.outcome (call transport) = inl a ->
  snd (Rx.subscribe call observer transport st) = Rx.next observer a st.
Proof. unfold Rx.subscribe. simpl. intros ->. reflexivity. Qed.

Ltac failed_call :=
  let H := fresh in
  intros ? ? ? H; rewrite (subscribe_failed _ _ _ _ _ H); simpl;
  repeat split; eauto.

Lemma pods_failure_surfaces :
  surfaces_failure PodsComponent.loading PodsComponent.error PodsComponent.pods
    ApiService.getPods PodsComponent.loadPods_observer.
Proof. failed_call. Qed.

Lemma decisions_failure_surfaces (limit : option Z) :
  surfaces_failure DecisionsComponent.loading DecisionsComponent.error
    DecisionsComponent.decisions
    (ApiService.getDecisions limit) DecisionsComponent.loadDecisions_observer.
Proof. failed_call. Qed.

Lemma config_failure_surfaces :
  surfaces_failure ConfigComponent.loading ConfigComponent.error ConfigComponent.config
    ApiService.getConfig ConfigComponent.loadConfig_observer.
Proof. failed_call. Qed.

Lemma dashboard_config_failure_surfaces :
  surfaces_failure DashboardComponent.loading DashboardComponent.error dashboard_data
    ApiService.getConfig DashboardComponent.config_observer.
Proof. failed_call. Qed.

(** C7, as amended: a failed load call of the pods, decisions and config
    views, and the failed configuration call of the dashboard, store an error
    string, set [loading = false] and keep the data; the dashboard's failed
    statistics call stores an error string and keeps the data but leaves
    [loading] as it is; the dashboard's failed autoscale-status call changes
    nothing.  Run from its start, a failed [loadPods], [loadDecisions] or
    [loadConfig] ends with the view's own message, [loading = false] and the
    data held before the call. *)
Theorem load_failure_effects :
  surfaces_failure PodsComponent.loading PodsComponent.error PodsComponent.pods
    ApiService.getPods PodsComponent.loadPods_observer /\
  (forall limit,
     surfaces_failure DecisionsComponent.loading DecisionsComponent.error
       DecisionsComponent.decisions
       (ApiService.getDecisions limit) DecisionsComponent.loadDecisions_observer) /\
  surfaces_failure ConfigComponent.loading ConfigComponent.error ConfigComponent.config
    ApiService.getConfig ConfigComponent.loadConfig_observer /\
  surfaces_failure DashboardComponent.loading DashboardComponent.error dashboard_data
    ApiService.getConfig DashboardComponent.config_observer /\
  (forall transport e st,
     Rx.outcome (ApiService.getStatistics transport) = inr e ->
     snd (Rx.subscribe ApiService.getStatistics DashboardComponent.statistics_observer
            transport st) =
     DashboardComponent.mk
       (DashboardComponent.statistics st) (DashboardComponent.autoscaleStatus st)
       (DashboardComponent.config st) (DashboardComponent.loading st)
       (Some "Failed to load statistics")) /\
  (forall transport e st,
     Rx.outcome (ApiService.getAutoscaleStatus transport) = inr e ->
     snd (Rx.subscribe ApiService.getAutoscaleStatus
            DashboardComponent.autoscaleStatus_observer transport st) = st) /\
  (forall transport e st,
     Rx.outcome (ApiService.getPods transport) = inr e ->
     snd (PodsComponent.loadPods transport st) =
     PodsComponent.mk (PodsComponent.pods st) false (Some "Failed to load pods")
                      (PodsComponent.scalingPod st)) /\
  (forall transport e st,
     Rx.outcome (ApiService.getDecisions (Some (DecisionsComponent.limit st)) transport)
       = inr e ->
     snd (DecisionsComponent.loadDecisions transport st) =
     DecisionsComponent.mk (DecisionsComponent.decisions st) false
                           (Some "Failed to load decisions")
                           (DecisionsComponent.limit st)) /\
  (forall transport e st,
     Rx.outcome (ApiService.getConfig transport) = inr e ->
     snd (ConfigComponent.loadConfig transport st) =
     ConfigComponent.mk (ConfigComponent.config st) false
                        (Some "Failed to load configuration")
                        (ConfigComponent.success st) (ConfigComponent.saving st)).
Proof.
  split; [exact pods_failure_surfaces |].
  split; [exact decisions_failure_surfaces |].
  split; [exact config_failure_surfaces |].
  split; [exact dashboard_config_failure_surfaces |].
  repeat split; intros transport e st H.
  - rewrite (subscribe_failed _ _ _ _ _ H). reflexivity.
  - rewrite (subscribe_failed _ _ _ _ _ H). reflexivity.
  - unfold PodsComponent.loadPods. rewrite (subscribe_failed _ _ _ _ _ H). reflexivity.
  - unfold DecisionsComponent.loadDecisions.
    rewrite (subscribe_failed _ _ _ _ _ H). reflexivity.
  - unfold ConfigComponent.loadConfig.
    rewrite (subscribe_failed _ _ _ _ _ H). reflexivity.
Qed.

(** C7, as stated, fails: while the dashboard reloads, a failed
    autoscale-status call stores no error string (and [loading] stays true). *)
Lemma dashboard_status_failure_is_silent : ~ every_load_failure_surfaces.
Proof.
  intros (_ & _ & _ & _ & Hstatus & _).
  destruct (Hstatus Samples.unavailable
              (Js.mkError (ApiService.errorMessage
                 (Http.mkErrorResponse Http.OtherPayload 503 "Service Unavailable")))
              Samples.reloading_dashboard eq_refl) as ([msg Hmsg] & _).
  vm_compute in Hmsg. discriminate Hmsg.
Qed.

Example dashboard_failures :
  snd (DashboardComponent.loadDashboard
         (Samples.answering (StatisticsResponse.mk true Samples.statistics))
         Samples.unavailable
         (Samples.answering Samples.config)
         DashboardComponent.initial) =
  DashboardComponent.mk (Some Samples.statistics) None (Some Samples.config) false None /\
  snd (Rx.subscribe ApiService.getAutoscaleStatus
         DashboardComponent.autoscaleStatus_observer Samples.unavailable
         Samples.reloading_dashboard) = Samples.reloading_dashboard /\
  DashboardComponent.loading Samples.reloading_dashboard = true /\
  DashboardComponent.loading
    (snd (Rx.subscribe ApiService.getStatistics
            DashboardComponent.statistics_observer Samples.unavailable
            Samples.reloading_dashboard)) = true.
Proof. repeat split. Qed.

(** C8: when the list call is answered with [success = true], [loadDecisions]
    has sent exactly one request, for the limit selected in the view, and
    stores the reverse of the list received; the view starts with limit 50,
    which is also what the client uses when no limit is passed. *)
Theorem decisions_newest_first
    (transport : Http.Transport DecisionsResponse.t) (st : DecisionsComponent.t)
    (response : DecisionsResponse.t) :
  transport (ApiService.getDecisions_request (Some (DecisionsComponent.limit st)))
    = inl response ->
  DecisionsResponse.success response = true ->
  DecisionsComponent.loadDecisions transport st =
    ([ApiService.get (ApiService.apiUrl +:+ "/decisions?limit=" +:+
                      Js.int_to_string (DecisionsComponent.limit st))],
     DecisionsComponent.mk (rev (DecisionsResponse.decisions response)) false None
                           (DecisionsComponent.limit st)) /\
  DecisionsComponent.limit DecisionsComponent.initial = 50%Z /\
  ApiService.getDecisions_request None = ApiService.getDecisions_request (Some 50%Z).
Proof.
  intros Hanswer Hflag. split; [| split; reflexivity].
  unfold DecisionsComponent.loadDecisions, Rx.subscribe, ApiService.getDecisions.
  rewrite (call_answered _ _ _ Hanswer). simpl. rewrite Hflag. reflexivity.
Qed.

Lemma decisions_newest_first_limit_25 :
  DecisionsComponent.loadDecisions
    (Samples.answering
       (DecisionsResponse.mk true 2%float [Samples.legacy; Samples.enhanced]))
    Samples.decisions_view_25 =
    ([ApiService.get "http://localhost:5404/decisions?limit=25"],
     DecisionsComponent.mk [Samples.enhanced; Samples.legacy] false None 25%Z) /\
  DecisionsComponent.limit DecisionsComponent.initial = 50%Z /\
  ApiService.getDecisions_request None = ApiService.getDecisions_request (Some 50%Z).
Proof.
  apply (decisions_newest_first
           (Samples.answering
              (DecisionsResponse.mk true 2%float [Samples.legacy; Samples.enhanced]))
           Samples.decisions_view_25
           (DecisionsResponse.mk true 2%float [Samples.legacy; Samples.enhanced]));
    reflexivity.
Defined.

Ltac refused_call :=
  let H := fresh in
  let Hflag := fresh in
  intros ? ? ? H Hflag; rewrite (subscribe_answered _ _ _ _ _ H); simpl;
  rewrite Hflag; repeat split.

Lemma pods_refusal_ignored :
  ignores_refusal PodsComponent.loading PodsComponent.error PodsComponent.pods
    PodsResponse.success ApiService.getPods PodsComponent.loadPods_observer.
Proof. refused_call. Qed.

Lemma decisions_refusal_ignored (limit : option Z) :
  ignores_refusal DecisionsComponent.loading DecisionsComponent.error
    DecisionsComponent.decisions DecisionsResponse.success
    (ApiService.getDecisions limit) DecisionsComponent.loadDecisions_observer.
Proof. refused_call. Qed.

(** C10, as amended: an answer with [success = false] to the list call of the
    pods or decisions view keeps the list, sets [loading = false] and writes
    no error, so that a load run from its start ends with no error at all; an
    answer with [success = false] to the dashboard's statistics call, at load
    or at refresh, leaves the dashboard exactly as it was: data, error and
    also [loading]. *)
Theorem refusal_effects :
  ignores_refusal PodsComponent.loading PodsComponent.error PodsComponent.pods
    PodsResponse.success ApiService.getPods PodsComponent.loadPods_observer /\
  (forall limit,
     ignores_refusal DecisionsComponent.loading DecisionsComponent.error
       DecisionsComponent.decisions DecisionsResponse.success
       (ApiService.getDecisions limit) DecisionsComponent.loadDecisions_observer) /\
  (forall transport response st,
     Rx.outcome (ApiService.getPods transport) = inl response ->
     PodsResponse.success response = false ->
     snd (PodsComponent.loadPods transport st) =
     PodsComponent.mk (PodsComponent.pods st) false None (PodsComponent.scalingPod st)) /\
  (forall transport response st,
     Rx.outcome (ApiService.getDecisions (Some (DecisionsComponent.limit st)) transport)
       = inl response ->
     DecisionsResponse.success response = false ->
     snd (DecisionsComponent.loadDecisions transport st) =
     DecisionsComponent.mk (DecisionsComponent.decisions st) false None
                           (DecisionsComponent.limit st)) /\
  (forall transport response st,
     Rx.outcome (ApiService.getStatistics transport) = inl response ->
     StatisticsResponse.success response = false ->
     snd (Rx.subscribe ApiService.getStatistics DashboardComponent.statistics_observer
            transport st) = st /\
     snd (Rx.subscribe ApiService.getStatistics DashboardComponent.refresh_observer
            transport st) = st).
Proof.
  split; [exact pods_refusal_ignored |].
  split; [exact decisions_refusal_ignored |].
  split; [| split]; intros transport response st H Hflag.
  - unfold PodsComponent.loadPods.
    rewrite (subscribe_answered _ _ _ _ _ H). simpl. rewrite Hflag. reflexivity.
  - unfold DecisionsComponent.loadDecisions.
    rewrite (subscribe_answered _ _ _ _ _ H). simpl. rewrite Hflag. reflexivity.
  - rewrite !(subscribe_answered _ _ _ _ _ H). simpl. rewrite Hflag. split; reflexivity.
Qed.

(** C10, as stated, fails: while the dashboard reloads, a statistics answer
    with [success = false] leaves [loading] true. *)
Lemma dashboard_refusal_keeps_loading : ~ every_refusal_ignored.
Proof.
  intros (_ & _ & Hstats).
  destruct (Hstats (Samples.answering (StatisticsResponse.mk false Samples.statistics))
              (StatisticsResponse.mk false Samples.statistics)
              Samples.reloading_dashboard eq_refl eq_refl) as (_ & Hloading & _).
  vm_compute in Hloading. discriminate Hloading.
Qed.

Example refused_loads :
  snd (PodsComponent.loadPods
         (Samples.answering (PodsResponse.mk false 0%float []))
         (PodsComponent.mk [Samples.web_pod] false (Some "Failed to load pods") None)) =
  PodsComponent.mk [Samples.web_pod] false None None /\
  snd (PodsComponent.loadPods
         (Samples.answering (PodsResponse.mk true 1%float [Samples.web_pod]))
         PodsComponent.initial) =
  PodsComponent.mk [Samples.web_pod] false None None /\
  snd (PodsComponent.loadPods Samples.unavailable
         (PodsComponent.mk [Samples.web_pod] false None None)) =
  PodsComponent.mk [Samples.web_pod] false (Some "Failed to load pods") None.
Proof. repeat split. Qed.

End LifecycleFacts.

(** * Further properties of the code *)

(** ** Decisions view: badges, confidences, usage, applied flag and reason *)

Section DecisionsViewFacts.

Import Normalizer DecisionsView.

(** The overall action of any decision is one of the three actions, and the
    badge chosen for it is that action's own badge: the fallback class
    [badge-secondary] is never used for an overall action. *)
Theorem overall_action_badge (d : ScalingDecision) :
  (getOverallAction d = "INCREASE" /\
   getActionClass (getOverallAction d) = "badge-success") \/
  (getOverallAction d = "DECREASE" /\
   getActionClass (getOverallAction d) = "badge-danger") \/
  (getOverallAction d = "MAINTAIN" /\
   getActionClass (getOverallAction d) = "badge-info").
Proof.
  unfold getOverallAction.
  destruct (action d) as [[]|]; simpl; auto.
  destruct (cpu_action d) as [[]|], (memory_action d) as [[]|]; simpl; auto.
Qed.

(** With no [action] and one of the two per-resource actions missing, the
    overall action is MAINTAIN whatever the remaining one asks for, while
    [hasEnhancedFormat] is false. *)
Theorem incomplete_pair_maintains (d : ScalingDecision) :
  action d = None ->
  cpu_action d = None \/ memory_action d = None ->
  getOverallAction d = "MAINTAIN" /\ hasEnhancedFormat d = false.
Proof.
  unfold getOverallAction, hasEnhancedFormat. intros -> [-> | ->].
  - split; reflexivity.
  - destruct (cpu_action d); split; reflexivity.
Qed.

Lemma incomplete_pair_maintains_cpu_only :
  getOverallAction MoreSamples.cpu_only = "MAINTAIN" /\
  hasEnhancedFormat MoreSamples.cpu_only = false.
Proof.
  apply (incomplete_pair_maintains MoreSamples.cpu_only);
    [reflexivity | right; reflexivity].
Defined.

(** The per-resource confidences are the two components of a confidence
    pair, whose mean is the overall confidence; for a plain or a missing
    confidence both equal the overall confidence. *)
Theorem resource_confidences (d : ScalingDecision) :
  (forall p, confidence d = Some (ConfPair p) ->
     getCpuConfidence d = CpuMemory.cpu p /\
     getMemoryConfidence d = CpuMemory.memory p /\
     getOverallConfidence d =
       ((getCpuConfidence d + getMemoryConfidence d) / 2)%float) /\
  ((forall p, confidence d <> Some (ConfPair p)) ->
     getCpuConfidence d = getOverallConfidence d /\
     getMemoryConfidence d = getOverallConfidence d).
Proof.
  unfold getCpuConfidence, getMemoryConfidence, getConfidenceObject,
    getOverallConfidence.
  split.
  - intros p ->. repeat split.
  - intros Hno. destruct (confidence d) as [[n | p] |]; try (split; reflexivity).
    destruct (Hno p eq_refl).
Qed.

(** A number that is truthy or exactly [0]: neither [NaN] nor [-0]. *)
Lemma truthy_or_zero_plain (v : float) :
  Js.truthy v = true \/ v = 0%float ->
  PrimFloat.is_nan v = false /\ v <> (-0)%float.
Proof.
  intros [H | ->].
  - unfold Js.truthy in H. apply negb_true_iff, orb_false_iff in H as [Hz Hn].
    split; [exact Hn |]. intros ->. vm_compute in Hz. discriminate Hz.
  - split; [reflexivity |]. intros H.
    apply (f_equal (fun x => PrimFloat.ltb (1 / x) 0)%float) in H.
    vm_compute in H. discriminate H.
Qed.

Lemma truthy_or_keeps (a : option float) (k : float) :
  Js.truthy k = true \/ k = 0%float ->
  Js.truthy (Js.truthy_or a k) = true \/ Js.truthy_or a k = 0%float.
Proof.
  intros Hk. unfold Js.truthy_or. destruct a as [v|]; [| exact Hk].
  destruct (Js.truthy v) eqn:Hv; [left; exact Hv | exact Hk].
Qed.

(** Whatever numbers a decision carries, the resource, usage and change
    accessors never yield [NaN] or [-0]: a falsy field is replaced by the
    next fallback and in the end by [0]. *)
Theorem accessors_yield_plain_numbers (d : ScalingDecision) :
  Forall (fun r : float => PrimFloat.is_nan r = false /\ r <> (-0)%float)
    [getCurrentCpuCores d; getProposedCpuCores d;
     getCurrentMemoryMb d; getProposedMemoryMb d;
     getUsageCpuCores d; getUsageMemoryMb d;
     getCpuChangePercent d; getMemoryChangePercent d].
Proof.
  assert (Hzero : Js.truthy 0 = true \/ 0%float = 0%float) by (right; reflexivity).
  repeat constructor; apply truthy_or_zero_plain;
    unfold getCurrentCpuCores, getProposedCpuCores, getCurrentMemoryMb,
      getProposedMemoryMb, getUsageCpuCores, getUsageMemoryMb,
      getCpuChangePercent, getMemoryChangePercent;
    repeat apply truthy_or_keeps; exact Hzero.
Qed.

(** The usage accessors prefer [current_usage], then [current_metrics], then
    0, a field counting only when it is present and truthy; when neither
    [current_usage] nor [current_resources] has a usable value, the usage
    shown equals the current allocation shown. *)
Theorem usage_chain (d : ScalingDecision) :
  prefers (usable (Resources.cpu_cores <$> current_usage d))
          (usable (CurrentMetrics.cpu_usage <$> current_metrics d))
          0%float (getUsageCpuCores d) /\
  prefers (usable (Resources.memory_mb <$> current_usage d))
          (usable (CurrentMetrics.memory_usage_mb <$> current_metrics d))
          0%float (getUsageMemoryMb d) /\
  (usable (Resources.cpu_cores <$> current_usage d) = None ->
   usable (Resources.cpu_cores <$> current_resources d) = None ->
   getUsageCpuCores d = getCurrentCpuCores d) /\
  (usable (Resources.memory_mb <$> current_usage d) = None ->
   usable (Resources.memory_mb <$> current_resources d) = None ->
   getUsageMemoryMb d = getCurrentMemoryMb d).
Proof.
  unfold getUsageCpuCores, getUsageMemoryMb, getCurrentCpuCores, getCurrentMemoryMb.
  split; [apply prefers_usable |]. split; [apply prefers_usable |].
  split; unfold usable, Js.truthy_or.
  - destruct (Resources.cpu_cores <$> current_usage d) as [u|],
      (Resources.cpu_cores <$> current_resources d) as [r|];
      try destruct (Js.truthy u); try destruct (Js.truthy r);
      intros; congruence.
  - destruct (Resources.memory_mb <$> current_usage d) as [u|],
      (Resources.memory_mb <$> current_resources d) as [r|];
      try destruct (Js.truthy u); try destruct (Js.truthy r);
      intros; congruence.
Qed.

(** A decision counts as not applied exactly when it says [applied: false],
    or says nothing about [applied] and has [can_scale: false]; a decision
    silent on both counts as applied. *)
Theorem isApplied_false_iff (d : ScalingDecision) :
  isApplied d = false <->
  applied d = Some false \/ (applied d = None /\ can_scale d = Some false).
Proof.
  unfold isApplied.
  destruct (applied d) as [[]|], (can_scale d) as [[]|]; split;
    try discriminate; try (intros [H | [H1 H2]]; discriminate); auto.
Qed.

Lemma reason_changes_text (d : ScalingDecision) :
  reason_changes d = [] \/
  exists c rest, String.concat ", " (reason_changes d) = String c rest.
Proof.
  unfold reason_changes.
  destruct (cpu_action d) as [[]|], (memory_action d) as [[]|]; simpl;
    first [left; reflexivity | right; eexists; eexists; reflexivity].
Qed.

(** The reason shown for a decision is never the empty string: an empty
    [reason] field is replaced like a missing one. *)
Theorem getReason_nonempty (d : ScalingDecision) : getReason d <> "".
Proof.
  assert (Hderived :
    match can_scale d with
    | Some false => "Scaling not allowed"
    | _ => if (0 <? length (reason_changes d))%nat
           then String.concat ", " (reason_changes d)
           else "No changes needed"
    end <> "").
  { destruct (can_scale d) as [[]|]; try discriminate;
      destruct (reason_changes_text d) as [-> | (c & rest & Hc)];
      try discriminate;
      destruct (0 <? length (reason_changes d))%nat; try discriminate;
      rewrite Hc; discriminate. }
  unfold getReason. destruct (reason d) as [r|]; [| exact Hderived].
  unfold JsValue.string_truthy. destruct (String.eqb_spec r ""); simpl; auto.
Qed.

(** For an enhanced decision that may scale and brings no reason of its own,
    the reason reads "No changes needed" exactly when the overall action is
    MAINTAIN. *)
Theorem no_changes_iff_maintain (d : ScalingDecision) (c m : Action) :
  action d = None -> cpu_action d = Some c -> memory_action d = Some m ->
  can_scale d <> Some false ->
  (forall r, reason d = Some r -> r = "") ->
  (getReason d = "No changes needed" <-> getOverallAction d = "MAINTAIN").
Proof.
  intros Ha Hc Hm Hscale Hreason.
  assert (Hr : getReason d =
               if (0 <? length (reason_changes d))%nat
               then String.concat ", " (reason_changes d)
               else "No changes needed").
  { unfold getReason. destruct (reason d) as [r|].
    - rewrite (Hreason r eq_refl). simpl.
      destruct (can_scale d) as [[]|]; congruence.
    - destruct (can_scale d) as [[]|]; congruence. }
  rewrite Hr. unfold reason_changes, getOverallAction. rewrite Ha, Hc, Hm.
  destruct c, m; simpl; split; intros H; try reflexivity; discriminate H.
Qed.

Lemma no_changes_iff_maintain_enhanced :
  getReason Samples.enhanced = "No changes needed" <->
  getOverallAction Samples.enhanced = "MAINTAIN".
Proof.
  apply (no_changes_iff_maintain Samples.enhanced DECREASE INCREASE);
    try reflexivity; simpl; intros; discriminate.
Defined.

(** "Has changes" and the change percent agree: a truthy change percent
    always means the resource has changes, and a resource that has changes
    shows a truthy change percent unless the field holds [NaN]. *)
Theorem changes_agree_with_percent (d : ScalingDecision) :
  (Js.truthy (getCpuChangePercent d) = true -> hasCpuChanges d = true) /\
  (Js.truthy (getMemoryChangePercent d) = true -> hasMemoryChanges d = true) /\
  (forall r, resource_changes d ≫= ResourceChanges.cpu = Some r ->
     PrimFloat.is_nan (ResourceChange.change_percent r) = false ->
     hasCpuChanges d = true -> Js.truthy (getCpuChangePercent d) = true) /\
  (forall r, resource_changes d ≫= ResourceChanges.memory = Some r ->
     PrimFloat.is_nan (ResourceChange.change_percent r) = false ->
     hasMemoryChanges d = true -> Js.truthy (getMemoryChangePercent d) = true).
Proof.
  assert (Hfwd : forall o : option ResourceChange.t,
    Js.truthy (Js.truthy_or (ResourceChange.change_percent <$> o) 0) = true ->
    match o with
    | Some c => Js.strict_ne_zero (ResourceChange.change_percent c)
    | None => false
    end = true).
  { intros [c|]; simpl; [| intros H; vm_compute in H; discriminate H].
    destruct (Js.truthy (ResourceChange.change_percent c)) eqn:Hc;
      [| intros H; vm_compute in H; discriminate H].
    intros _. unfold Js.truthy in Hc.
    apply negb_true_iff, orb_false_iff in Hc as [Hz _].
    unfold Js.strict_ne_zero. apply negb_true_iff. exact Hz. }
  assert (Hbwd : forall c : ResourceChange.t,
    PrimFloat.is_nan (ResourceChange.change_percent c) = false ->
    Js.strict_ne_zero (ResourceChange.change_percent c) = true ->
    Js.truthy (Js.truthy_or (Some (ResourceChange.change_percent c)) 0) = true).
  { intros c Hn Hz. unfold Js.strict_ne_zero in Hz. apply negb_true_iff in Hz.
    assert (Ht : Js.truthy (ResourceChange.change_percent c) = true).
    { unfold Js.truthy, PrimFloat.is_zero. rewrite Hn.
      change PrimFloat.zero with 0%float. rewrite Hz. reflexivity. }
    unfold Js.truthy_or. rewrite Ht. exact Ht. }
  unfold getCpuChangePercent, getMemoryChangePercent, hasCpuChanges, hasMemoryChanges.
  split; [apply Hfwd |]. split; [apply Hfwd |].
  split; intros r -> Hn; simpl; apply Hbwd; exact Hn.
Qed.

End DecisionsViewFacts.

(** ** Session guard: what every sequence of calls preserves *)

Section SessionInvariants.

Import AuthService.

Lemma stored_flag_after_login (username : string) (w : World) :
  getStoredAuthState
    (localStorage (subject_next true
       (setItem "username" username (setItem "isAuthenticated" "true" w)))) = true.
Proof.
  unfold getStoredAuthState, subject_next, setItem. simpl.
  rewrite lookup_insert_ne by discriminate. rewrite lookup_insert_eq.
  reflexivity.
Qed.

Lemma stored_flag_after_logout (w : World) :
  getStoredAuthState (localStorage (logout w)) = false.
Proof.
  unfold getStoredAuthState, logout, subject_next, removeItem. simpl.
  rewrite lookup_delete_ne by discriminate. rewrite lookup_delete_eq.
  reflexivity.
Qed.

Lemma step_keeps_flag_in_sync (w : World) (ev : Event) :
  isAuthenticated w = getStoredAuthState (localStorage w) ->
  isAuthenticated (step w ev) = getStoredAuthState (localStorage (step w ev)).
Proof.
  intros Hw. destruct ev as [username password |]; cbn [step].
  - destruct (fst (login username password w)) eqn:Hok.
    + rewrite (login_accepted_world _ _ _ Hok), stored_flag_after_login. reflexivity.
    + rewrite (login_rejected_world _ _ _ Hok). exact Hw.
  - rewrite stored_flag_after_logout. reflexivity.
Qed.

Lemma step_keeps_signal_fresh (w : World) (ev : Event) :
  (emitted w = [] \/ last (emitted w) = Some (isAuthenticated w)) ->
  emitted (step w ev) = emitted w \/
  last (emitted (step w ev)) = Some (isAuthenticated (step w ev)).
Proof.
  intros _. destruct ev as [username password |]; cbn [step].
  - destruct (fst (login username password w)) eqn:Hok.
    + right. rewrite (login_accepted_world _ _ _ Hok). simpl. apply last_snoc.
    + left. rewrite (login_rejected_world _ _ _ Hok). reflexivity.
  - right. simpl. apply last_snoc.
Qed.

(** From the start of the service and through every sequence of login and
    logout calls, the in-memory flag equals the stored flag, so a restart
    restores exactly the session that was live; and the last value signalled
    to subscribers, when there is one, is the current flag. *)
Theorem session_flag_in_sync (storage : gmap string string) (events : list Event) :
  isAuthenticated (run events (create storage)) =
    getStoredAuthState (localStorage (run events (create storage))) /\
  isAuthenticated (create (localStorage (run events (create storage)))) =
    isAuthenticated (run events (create storage)) /\
  (emitted (run events (create storage)) = [] \/
   last (emitted (run events (create storage))) =
     Some (isAuthenticated (run events (create storage)))).
Proof.
  assert (Hsync : forall evs w,
    isAuthenticated w = getStoredAuthState (localStorage w) ->
    isAuthenticated (run evs w) = getStoredAuthState (localStorage (run evs w))).
  { induction evs as [| ev evs IH]; intros w Hw; simpl; [exact Hw |].
    apply IH, step_keeps_flag_in_sync, Hw. }
  assert (Hfresh : forall evs w,
    (emitted w = [] \/ last (emitted w) = Some (isAuthenticated w)) ->
    emitted (run evs w) = [] \/
    last (emitted (run evs w)) = Some (isAuthenticated (run evs w))).
  { induction evs as [| ev evs IH]; intros w Hw; simpl; [exact Hw |].
    apply IH. destruct (step_keeps_signal_fresh w ev Hw) as [Hsame | Hlast];
      [| right; exact Hlast].
    destruct ev as [username password |]; cbn [step] in *.
    - destruct (fst (login username password w)) eqn:Hok.
      + rewrite (login_accepted_world _ _ _ Hok) in *. simpl in Hsame.
        apply (f_equal (@length bool)) in Hsame. rewrite length_app in Hsame.
        simpl in Hsame. lia.
      + rewrite (login_rejected_world _ _ _ Hok). exact Hw.
    - simpl in Hsame. apply (f_equal (@length bool)) in Hsame.
      rewrite length_app in Hsame. simpl in Hsame. lia. }
  split; [apply Hsync; reflexivity |].
  split; [symmetry; apply Hsync; reflexivity |].
  apply Hfresh. left. reflexivity.
Qed.

(** Login and logout only ever touch the two storage keys [isAuthenticated]
    and [username]: every other entry of [localStorage] survives any sequence
    of calls. *)
Theorem other_storage_keys_untouched (events : list Event) (w : World) (key : string) :
  key <> "isAuthenticated" -> key <> "username" ->
  localStorage (run events w) !! key = localStorage w !! key.
Proof.
  intros Hflag Hname. revert w.
  induction events as [| ev events IH]; intros w; simpl; [reflexivity |].
  rewrite IH. destruct ev as [username password |]; cbn [step].
  - destruct (fst (login username password w)) eqn:Hok.
    + rewrite (login_accepted_world _ _ _ Hok). simpl.
      rewrite !lookup_insert_ne by congruence. reflexivity.
    + rewrite (login_rejected_world _ _ _ Hok). reflexivity.
  - simpl. rewrite !lookup_delete_ne by congruence. reflexivity.
Qed.

Lemma other_storage_keys_untouched_theme :
  localStorage (run [Login "admin" "admin"; Logout]
                    (create (<["theme" := "dark"]> ∅))) !! "theme" =
  localStorage (create (<["theme" := "dark"]> ∅)) !! "theme".
Proof.
  apply (other_storage_keys_untouched [Login "admin" "admin"; Logout]
           (create (<["theme" := "dark"]> ∅)) "theme"); discriminate.
Defined.

(** Logout ends the session from any state: the flag is false, both keys are
    gone from storage, and a restart finds no session; after a login that
    followed a state without the two keys, it restores the storage exactly. *)
Theorem logout_clears_session (w : World) :
  isAuthenticated (logout w) = false /\
  getItem "isAuthenticated" (logout w) = None /\
  getUsername (logout w) = None /\
  isAuthenticated (create (localStorage (logout w))) = false /\
  (localStorage w !! "isAuthenticated" = None ->
   localStorage w !! "username" = None ->
   localStorage (logout (snd (login "admin" "admin" w))) = localStorage w).
Proof.
  split; [reflexivity |].
  split; [| split; [| split]].
  - unfold getItem, logout, subject_next, removeItem. simpl.
    rewrite lookup_delete_ne by discriminate. apply lookup_delete_eq.
  - unfold getUsername, getItem, logout, subject_next, removeItem. simpl.
    apply lookup_delete_eq.
  - apply stored_flag_after_logout.
  - intros Hflag Hname.
    rewrite (login_accepted_world "admin" "admin" w eq_refl).
    unfold logout, subject_next, removeItem, setItem. simpl.
    apply map_eq. intros k.
    destruct (decide (k = "username")) as [-> | Hk1].
    { rewrite lookup_delete_eq. symmetry. exact Hname. }
    rewrite lookup_delete_ne by congruence.
    destruct (decide (k = "isAuthenticated")) as [-> | Hk2].
    { rewrite lookup_delete_eq. symmetry. exact Hflag. }
    rewrite lookup_delete_ne by congruence.
    rewrite !lookup_insert_ne by congruence. reflexivity.
Qed.

End SessionInvariants.

(** ** Login view *)

Section LoginViewFacts.

Import LoginComponent.

Lemma string_truthy_false_iff (s : string) :
  JsValue.string_truthy s = false <-> s = "".
Proof.
  unfold JsValue.string_truthy. rewrite negb_false_iff. apply String.eqb_eq.
Qed.

(** Submitting the login form has exactly three outcomes.  With a blank
    username or password the session guard is not called: only the error
    text changes.  With the accepted credentials the session becomes
    authenticated and the router is sent to [/dashboard].  With any other
    credentials the form shows "Invalid credentials", nothing is navigated
    and the session state is left as it was.  In the last two cases
    [loading] ends false. *)
Theorem login_form_outcomes (page : Page) :
  ((username (component page) = "" \/ password (component page) = "") /\
   onSubmit page =
     mkPage (mk (username (component page)) (password (component page))
                "Please enter both username and password"
                (loading (component page)))
            (auth page) (navigations page)) \/
  (username (component page) = "admin" /\ password (component page) = "admin" /\
   component (onSubmit page) = mk "admin" "admin" "" false /\
   AuthService.isAuthenticated (auth (onSubmit page)) = true /\
   navigations (onSubmit page) = (navigations page ++ [["/dashboard"]])%list) \/
  (username (component page) <> "" /\ password (component page) <> "" /\
   ~ (username (component page) = "admin" /\ password (component page) = "admin") /\
   onSubmit page =
     mkPage (mk (username (component page)) (password (component page))
                "Invalid credentials" false)
            (auth page) (navigations page)).
Proof.
  unfold onSubmit.
  destruct (JsValue.string_truthy (username (component page))) eqn:Hu; simpl.
  2:{ left. split; [left; apply string_truthy_false_iff, Hu | reflexivity]. }
  destruct (JsValue.string_truthy (password (component page))) eqn:Hp; simpl.
  2:{ left. split; [right; apply string_truthy_false_iff, Hp | reflexivity]. }
  right.
  assert (Hu' : username (component page) <> "").
  { intros H. apply string_truthy_false_iff in H. congruence. }
  assert (Hp' : password (component page) <> "").
  { intros H. apply string_truthy_false_iff in H. congruence. }
  destruct (String.eqb (username (component page)) "admin" &&
            String.eqb (password (component page)) "admin") eqn:Hok.
  - left. apply andb_true_iff in Hok as [Hcu Hcp].
    apply String.eqb_eq in Hcu, Hcp. rewrite Hcu, Hcp. repeat split.
  - right. repeat split; try assumption.
    intros [Hcu Hcp]. rewrite Hcu, Hcp in Hok. discriminate Hok.
Qed.

Example login_form_samples :
  navigations (onSubmit (mkPage (mk "admin" "admin" "" false)
                                (AuthService.create ∅) [])) = [["/dashboard"]] /\
  onSubmit (mkPage (mk "admin" "" "" false) (AuthService.create ∅) []) =
    mkPage (mk "admin" "" "Please enter both username and password" false)
           (AuthService.create ∅) [] /\
  onSubmit (mkPage (mk "admin" "secret" "" false) (AuthService.create ∅) []) =
    mkPage (mk "admin" "secret" "Invalid credentials" false)
           (AuthService.create ∅) [].
Proof. repeat split; vm_compute; reflexivity. Qed.

End LoginViewFacts.

(** ** Dashboard *)

Section DashboardFacts.

Import DashboardComponent.

(** A notification of the periodic refresh, whatever it is, changes nothing
    but the statistics, and changes those only to the statistics of an answer
    whose [success] flag is true: a failed or refused refresh leaves the
    dashboard as it was. *)
Theorem refresh_touches_statistics_only
    (n : StatisticsResponse.t + Js.Error) (st : t) :
  autoscaleStatus (Rx.notify refresh_observer n st) = autoscaleStatus st /\
  config (Rx.notify refresh_observer n st) = config st /\
  loading (Rx.notify refresh_observer n st) = loading st /\
  error (Rx.notify refresh_observer n st) = error st /\
  (Rx.notify refresh_observer n st = st \/
   exists response,
     n = inl response /\ StatisticsResponse.success response = true /\
     statistics (Rx.notify refresh_observer n st) =
       Some (StatisticsResponse.statistics response)).
Proof.
  destruct n as [response | err]; simpl.
  - destruct (StatisticsResponse.success response) eqn:Hflag; simpl.
    + repeat split. right. exists response. repeat split. exact Hflag.
    + repeat split. left. reflexivity.
  - repeat split. left. reflexivity.
Qed.

(** [loadDashboard] always sends its three requests, in the order statistics,
    autoscale status, configuration, and (answers arriving in that order)
    ends with [loading = false]; each of the three data is replaced only by
    its own successful answer; the error shown is the configuration failure
    if that call failed, else the statistics failure if that call failed,
    else none: an autoscale-status failure is never shown. *)
Theorem loadDashboard_summary
    (statisticsTransport : Http.Transport StatisticsResponse.t)
    (statusTransport : Http.Transport AutoscaleStatus.t)
    (configTransport : Http.Transport Config.t) (st : t) :
  fst (loadDashboard statisticsTransport statusTransport configTransport st) =
    [ApiService.getStatistics_request; ApiService.getAutoscaleStatus_request;
     ApiService.getConfig_request] /\
  loading (snd (loadDashboard statisticsTransport statusTransport configTransport st))
    = false /\
  statistics (snd (loadDashboard statisticsTransport statusTransport configTransport st))
    = match statisticsTransport ApiService.getStatistics_request with
      | inl response =>
          if StatisticsResponse.success response
          then Some (StatisticsResponse.statistics response)
          else statistics st
      | inr _ => statistics st
      end /\
  autoscaleStatus
    (snd (loadDashboard statisticsTransport statusTransport configTransport st))
    = match statusTransport ApiService.getAutoscaleStatus_request with
      | inl status => Some status
      | inr _ => autoscaleStatus st
      end /\
  config (snd (loadDashboard statisticsTransport statusTransport configTransport st))
    = match configTransport ApiService.getConfig_request with
      | inl received => Some received
      | inr _ => config st
      end /\
  error (snd (loadDashboard statisticsTransport statusTransport configTransport st))
    = match configTransport ApiService.getConfig_request,
            statisticsTransport ApiService.getStatistics_request with
      | inr _, _ => Some "Failed to load configuration"
      | inl _, inr _ => Some "Failed to load statistics"
      | inl _, inl _ => None
      end.
Proof.
  unfold loadDashboard, Rx.subscribe, ApiService.getStatistics,
    ApiService.getAutoscaleStatus, ApiService.getConfig.
  rewrite !call_sends_once.
  destruct (statisticsTransport ApiService.getStatistics_request)
    as [response | e1] eqn:H1;
    [rewrite (call_answered _ _ _ H1) | rewrite (call_failed _ _ _ H1)];
    (destruct (statusTransport ApiService.getAutoscaleStatus_request)
       as [status | e2] eqn:H2;
     [rewrite (call_answered _ _ _ H2) | rewrite (call_failed _ _ _ H2)]);
    (destruct (configTransport ApiService.getConfig_request)
       as [received | e3] eqn:H3;
     [rewrite (call_answered _ _ _ H3) | rewrite (call_failed _ _ _ H3)]);
    simpl; try destruct (StatisticsResponse.success response);
    repeat split.
Qed.

Lemma loadDashboard_requests
    (statisticsTransport : Http.Transport StatisticsResponse.t)
    (statusTransport : Http.Transport AutoscaleStatus.t)
    (configTransport : Http.Transport Config.t) (st : t) :
  fst (loadDashboard statisticsTransport statusTransport configTransport st) =
    [ApiService.getStatistics_request; ApiService.getAutoscaleStatus_request;
     ApiService.getConfig_request].
Proof.
  unfold loadDashboard, Rx.subscribe, ApiService.getStatistics,
    ApiService.getAutoscaleStatus, ApiService.getConfig.
  rewrite !call_sends_once. reflexivity.
Qed.

End DashboardFacts.

Section DashboardActionFacts.

Import DashboardComponent DashboardView.

Lemma reload_run (backend : Backend) (r : Run) :
  reload backend r =
  mkRun (snd (loadDashboard (statisticsTransport backend)
                (statusTransport backend) (configTransport backend) (component r)))
        (requests r ++ [ApiService.getStatistics_request;
                        ApiService.getAutoscaleStatus_request;
                        ApiService.getConfig_request])
        (alerts r).
Proof.
  unfold reload.
  pose proof (loadDashboard_requests (statisticsTransport backend)
                (statusTransport backend) (configTransport backend) (component r)) as Hreq.
  destruct (loadDashboard _ _ _ (component r)) as [sent st']. simpl in *.
  rewrite Hreq. reflexivity.
Qed.

Lemma toggle_run {A : Type} (success : A -> bool) (backend : Backend)
    (req : Http.Request) (transport : Http.Transport A) (st : t) :
  Rx.subscribe (Rx.catchError ApiService.handleError (Rx.request req))
    (toggle_observer success backend) transport (mkRun st [] []) =
  ([req],
   match transport req with
   | inl response =>
       if success response then reload backend (mkRun st [] []) else mkRun st [] []
   | inr _ => set_error "Failed to toggle autoscale" (mkRun st [] [])
   end).
Proof.
  unfold Rx.subscribe. rewrite call_sends_once.
  destruct (transport req) as [response | e] eqn:H;
    [rewrite (call_answered _ _ _ H) | rewrite (call_failed _ _ _ H)];
    reflexivity.
Qed.

(** [toggleAutoscale] does nothing at all while no autoscale status is
    loaded.  Otherwise it sends one request, "stop" when the loaded status
    says enabled and "start" when not; a failure stores "Failed to toggle
    autoscale" and changes nothing else; an answer with [success = false]
    changes nothing; an answer with [success = true] is followed by a full
    reload of the dashboard.  It never shows an alert. *)
Theorem toggleAutoscale_outcomes (backend : Backend) (st : t) :
  alerts (toggleAutoscale backend st) = [] /\
  (autoscaleStatus st = None -> toggleAutoscale backend st = mkRun st [] []) /\
  (forall status, autoscaleStatus st = Some status ->
     AutoscaleStatus.enabled status = true ->
     match stopTransport backend ApiService.stopAutoscale_request with
     | inr _ =>
         toggleAutoscale backend st =
         mkRun (mk (statistics st) (autoscaleStatus st) (config st) (loading st)
                   (Some "Failed to toggle autoscale"))
               [ApiService.stopAutoscale_request] []
     | inl response =>
         if StopAutoscaleResponse.success response
         then toggleAutoscale backend st =
              mkRun (snd (loadDashboard (statisticsTransport backend)
                            (statusTransport backend) (configTransport backend) st))
                    [ApiService.stopAutoscale_request;
                     ApiService.getStatistics_request;
                     ApiService.getAutoscaleStatus_request;
                     ApiService.getConfig_request] []
         else toggleAutoscale backend st =
              mkRun st [ApiService.stopAutoscale_request] []
     end) /\
  (forall status, autoscaleStatus st = Some status ->
     AutoscaleStatus.enabled status = false ->
     match startTransport backend ApiService.startAutoscale_request with
     | inr _ =>
         toggleAutoscale backend st =
         mkRun (mk (statistics st) (autoscaleStatus st) (config st) (loading st)
                   (Some "Failed to toggle autoscale"))
               [ApiService.startAutoscale_request] []
     | inl response =>
         if StartAutoscaleResponse.success response
         then toggleAutoscale backend st =
              mkRun (snd (loadDashboard (statisticsTransport backend)
                            (statusTransport backend) (configTransport backend) st))
                    [ApiService.startAutoscale_request;
                     ApiService.getStatistics_request;
                     ApiService.getAutoscaleStatus_request;
                     ApiService.getConfig_request] []
         else toggleAutoscale backend st =
              mkRun st [ApiService.startAutoscale_request] []
     end).
Proof.
  unfold toggleAutoscale, ApiService.stopAutoscale, ApiService.startAutoscale.
  split; [| split; [| split]].
  - destruct (autoscaleStatus st) as [status|]; [| reflexivity].
    destruct (AutoscaleStatus.enabled status); rewrite toggle_run;
      cbv beta iota zeta;
      match goal with |- context [match ?t ?r with _ => _ end] =>
        destruct (t r) as [response | e] end; simpl; try reflexivity.
    + destruct (StopAutoscaleResponse.success response);
        [rewrite reload_run |]; reflexivity.
    + destruct (StartAutoscaleResponse.success response);
        [rewrite reload_run |]; reflexivity.
  - intros ->. reflexivity.
  - destruct st as [s a c l e0]; simpl. intros status -> ->. rewrite toggle_run.
    destruct (stopTransport backend ApiService.stopAutoscale_request)
      as [response | e]; [| reflexivity].
    destruct (StopAutoscaleResponse.success response);
      [rewrite reload_run |]; reflexivity.
  - destruct st as [s a c l e0]; simpl. intros status -> ->. rewrite toggle_run.
    destruct (startTransport backend ApiService.startAutoscale_request)
      as [response | e]; [| reflexivity].
    destruct (StartAutoscaleResponse.success response);
      [rewrite reload_run |]; reflexivity.
Qed.

(** [scaleAllNow] always sends one "scale all" request first.  Only an answer
    with [success = true] shows the "Processed ... pods" alert and reloads the
    dashboard; a failure stores "Failed to scale pods" and changes nothing
    else; an answer with [success = false] changes nothing and shows
    nothing. *)
Theorem scaleAllNow_outcomes (number_to_string : float -> string)
    (backend : Backend) (st : t) :
  match scaleAllTransport backend ApiService.scaleAllPods_request with
  | inr _ =>
      scaleAllNow number_to_string backend st =
      mkRun (mk (statistics st) (autoscaleStatus st) (config st) (loading st)
                (Some "Failed to scale pods"))
            [ApiService.scaleAllPods_request] []
  | inl response =>
      if ScaleAllResponse.success response
      then scaleAllNow number_to_string backend st =
           mkRun (snd (loadDashboard (statisticsTransport backend)
                         (statusTransport backend) (configTransport backend) st))
                 [ApiService.scaleAllPods_request;
                  ApiService.getStatistics_request;
                  ApiService.getAutoscaleStatus_request;
                  ApiService.getConfig_request]
                 ["Processed " +:+ number_to_string (ScaleAllResponse.processed response)
                  +:+ " pods successfully!"]
      else scaleAllNow number_to_string backend st =
           mkRun st [ApiService.scaleAllPods_request] []
  end.
Proof.
  unfold scaleAllNow, Rx.subscribe, ApiService.scaleAllPods.
  rewrite call_sends_once.
  destruct (scaleAllTransport backend ApiService.scaleAllPods_request)
    as [response | e] eqn:H;
    [rewrite (call_answered _ _ _ H) | rewrite (call_failed _ _ _ H)];
    [| reflexivity].
  cbv beta iota zeta delta [Rx.outcome Rx.notify Rx.next scaleAll_observer].
  destruct (ScaleAllResponse.success response); [| reflexivity].
  rewrite reload_run. reflexivity.
Qed.

Lemma falsy_count (v : float) :
  Js.truthy (Js.truthy_or (Some v) 0) = false -> Js.truthy_or (Some v) 0 = 0%float.
Proof.
  unfold Js.truthy_or. destruct (Js.truthy v) eqn:Hv; [congruence | reflexivity].
Qed.

(** The action percentages never divide by zero: when all three counts of a
    resource are zero (or not numbers), every percentage of that resource is
    0, whatever the rounding function; and without statistics every count and
    percentage is 0. *)
Theorem percentages_without_decisions (round : float -> float) (st : t) :
  (statistics st = None ->
   forall action,
     getCpuActionCount st action = 0%float /\
     getMemoryActionCount st action = 0%float /\
     getCpuActionPercentage round st action = 0%float /\
     getMemoryActionPercentage round st action = 0%float) /\
  ((forall action, Js.truthy (getCpuActionCount st action) = false) ->
   forall action, getCpuActionPercentage round st action = 0%float) /\
  ((forall action, Js.truthy (getMemoryActionCount st action) = false) ->
   forall action, getMemoryActionPercentage round st action = 0%float).
Proof.
  split; [| split].
  - unfold getCpuActionPercentage, getMemoryActionPercentage,
      getCpuActionCount, getMemoryActionCount.
    intros ->. intros action. repeat split.
  - intros Hzero action. unfold getCpuActionPercentage.
    destruct (statistics st) as [s|] eqn:Hs; [| reflexivity].
    pose proof (Hzero DECREASE) as Hd. pose proof (Hzero MAINTAIN) as Hm.
    pose proof (Hzero INCREASE) as Hi.
    unfold getCpuActionCount in *. rewrite Hs in *.
    rewrite (falsy_count _ Hd), (falsy_count _ Hm), (falsy_count _ Hi).
    reflexivity.
  - intros Hzero action. unfold getMemoryActionPercentage.
    destruct (statistics st) as [s|] eqn:Hs; [| reflexivity].
    pose proof (Hzero DECREASE) as Hd. pose proof (Hzero MAINTAIN) as Hm.
    pose proof (Hzero INCREASE) as Hi.
    unfold getMemoryActionCount in *. rewrite Hs in *.
    rewrite (falsy_count _ Hd), (falsy_count _ Hm), (falsy_count _ Hi).
    reflexivity.
Qed.

Example percentages_of_fresh_dashboard :
  getCpuActionPercentage (fun x => x) MoreSamples.fresh_dashboard INCREASE = 0%float /\
  getMemoryActionPercentage (fun x => x) MoreSamples.fresh_dashboard MAINTAIN = 0%float /\
  getCpuActionCount Samples.reloading_dashboard INCREASE = 2%float /\
  getCpuActionPercentage (fun x => x) Samples.reloading_dashboard MAINTAIN = 50%float.
Proof. repeat split; vm_compute; reflexivity. Qed.

End DashboardActionFacts.

(** ** Pod addresses *)

Section AddressFacts.

Lemma slash_split (a a' b b' : string) :
  Text.has_slash a = false -> Text.has_slash a' = false ->
  a +:+ "/" +:+ b = a' +:+ "/" +:+ b' -> a = a' /\ b = b'.
Proof.
  revert a'. induction a as [| c a IH]; intros [| c' a'] Ha Ha' H; simpl in *.
  - injection H as H. split; [reflexivity | exact H].
  - injection H as Hc _. subst c'. simpl in Ha'. discriminate Ha'.
  - injection H as Hc _. subst c. simpl in Ha. discriminate Ha.
  - injection H as Hc H. subst c'.
    apply orb_false_iff in Ha as [_ Ha]. apply orb_false_iff in Ha' as [_ Ha'].
    destruct (IH a' Ha Ha' H) as [-> ->]. split; reflexivity.
Qed.

(** The pod requests of the client and the pod key of the pods view identify
    a pod unambiguously as long as namespaces contain no [/] (the path is
    built by plain concatenation, with no escaping): two pods with the same
    "pod info" request, the same "scale pod" request or the same key have the
    same namespace and the same name. *)
Theorem pod_addresses_injective (namespace1 name1 namespace2 name2 : string) :
  Text.has_slash namespace1 = false -> Text.has_slash namespace2 = false ->
  (ApiService.getPodInfo_request namespace1 name1 =
   ApiService.getPodInfo_request namespace2 name2 ->
   namespace1 = namespace2 /\ name1 = name2) /\
  (ApiService.scalePod_request namespace1 name1 =
   ApiService.scalePod_request namespace2 name2 ->
   namespace1 = namespace2 /\ name1 = name2) /\
  (forall uid1 uid2 labels1 labels2 owner1 owner2,
     PodsView.getPodKey (Pod.mk name1 namespace1 uid1 labels1 owner1) =
     PodsView.getPodKey (Pod.mk name2 namespace2 uid2 labels2 owner2) ->
     namespace1 = namespace2 /\ name1 = name2).
Proof.
  intros H1 H2. split; [| split].
  - unfold ApiService.getPodInfo_request, ApiService.get. intros H.
    injection H as H. exact (slash_split _ _ _ _ H1 H2 H).
  - unfold ApiService.scalePod_request, ApiService.post. intros H.
    injection H as H. exact (slash_split _ _ _ _ H1 H2 H).
  - intros uid1 uid2 labels1 labels2 owner1 owner2 H.
    unfold PodsView.getPodKey in H. simpl in H.
    exact (slash_split _ _ _ _ H1 H2 H).
Qed.

Lemma pod_addresses_injective_default :
  (ApiService.getPodInfo_request "default" "web-0" =
   ApiService.getPodInfo_request "default" "web-0" ->
   "default" = "default" /\ "web-0" = "web-0") /\
  (ApiService.scalePod_request "default" "web-0" =
   ApiService.scalePod_request "default" "web-0" ->
   "default" = "default" /\ "web-0" = "web-0") /\
  (forall uid1 uid2 labels1 labels2 owner1 owner2,
     PodsView.getPodKey (Pod.mk "web-0" "default" uid1 labels1 owner1) =
     PodsView.getPodKey (Pod.mk "web-0" "default" uid2 labels2 owner2) ->
     "default" = "default" /\ "web-0" = "web-0").
Proof.
  apply (pod_addresses_injective "default" "web-0" "default" "web-0"); reflexivity.
Defined.

Example slash_in_namespace_collides :
  ApiService.getPodInfo_request "a/b" "c" = ApiService.getPodInfo_request "a" "b/c".
Proof. reflexivity. Qed.

End AddressFacts.

(** ** Pods view *)

Section PodsViewFacts.

Import PodsView.

(** Declining the confirmation of [scalePod] sends nothing and changes
    nothing.  Accepting it sends exactly one "scale pod" request for that
    pod; when the call completes, whatever its outcome, [scalingPod] is
    cleared and the pod list, [loading] and [error] are as before; a failure
    is reported in an alert that quotes the client's error message, an answer
    with [success = true] in one alert, and an answer with [success = false]
    not at all. *)
Theorem scalePod_outcomes (number_to_string toFixed1 : float -> string)
    (transport : Http.Transport ScalePodResponse.t)
    (pod : Pod.t) (st : PodsComponent.t) :
  scalePod number_to_string toFixed1 false transport pod st =
    ([], mkRun st [Confirm ("Scale pod " +:+ Pod.name pod +:+ " in namespace " +:+
                            Pod.namespace pod +:+ "?")]) /\
  fst (scalePod number_to_string toFixed1 true transport pod st) =
    [ApiService.scalePod_request (Pod.namespace pod) (Pod.name pod)] /\
  component (snd (scalePod number_to_string toFixed1 true transport pod st)) =
    PodsComponent.mk (PodsComponent.pods st) (PodsComponent.loading st)
                     (PodsComponent.error st) None /\
  dialogs (snd (scalePod number_to_string toFixed1 true transport pod st)) =
    Confirm ("Scale pod " +:+ Pod.name pod +:+ " in namespace " +:+
             Pod.namespace pod +:+ "?") ::
    match transport (ApiService.scalePod_request (Pod.namespace pod) (Pod.name pod)) with
    | inr e => [Alert ("Failed to scale pod: " +:+ ApiService.errorMessage e)]
    | inl response =>
        if ScalePodResponse.success response
        then [Alert (result_text number_to_string toFixed1
                       (ScalePodResponse.result response))]
        else []
    end.
Proof.
  split; [reflexivity |].
  unfold scalePod, Rx.subscribe, ApiService.scalePod.
  rewrite call_sends_once. split; [reflexivity |].
  destruct (transport (ApiService.scalePod_request (Pod.namespace pod) (Pod.name pod)))
    as [response | e] eqn:H;
    [rewrite (call_answered _ _ _ H) | rewrite (call_failed _ _ _ H)]; simpl.
  - destruct (ScalePodResponse.success response); split; reflexivity.
  - split; reflexivity.
Qed.

(** While a scale request is in flight, [isScaling] marks the pod being
    scaled, and no pod of another namespace or name as long as namespaces
    contain no [/]; once the call has completed no pod is marked. *)
Theorem isScaling_marks_the_pod (number_to_string toFixed1 : float -> string)
    (pod other : Pod.t) (r : Run) :
  Text.has_slash (Pod.namespace pod) = false ->
  Text.has_slash (Pod.namespace other) = false ->
  isScaling (component (scalePod_begin pod r)) pod = true /\
  (isScaling (component (scalePod_begin pod r)) other = true ->
   Pod.namespace other = Pod.namespace pod /\ Pod.name other = Pod.name pod) /\
  (forall n, isScaling
               (component (Rx.notify (scalePod_observer number_to_string toFixed1) n
                             (scalePod_begin pod r))) pod = false).
Proof.
  intros Hp Ho. unfold isScaling, scalePod_begin, getPodKey. simpl.
  split; [apply String.eqb_refl |]. split.
  - intros H. apply String.eqb_eq in H.
    destruct (slash_split _ _ _ _ Hp Ho H) as [-> ->]. split; reflexivity.
  - intros [response | err]; reflexivity.
Qed.

Lemma isScaling_marks_the_pod_sample :
  isScaling (component (scalePod_begin Samples.web_pod
                          (mkRun PodsComponent.initial []))) Samples.web_pod = true /\
  (isScaling (component (scalePod_begin Samples.web_pod
                           (mkRun PodsComponent.initial []))) MoreSamples.staging_pod
     = true ->
   Pod.namespace MoreSamples.staging_pod = Pod.namespace Samples.web_pod /\
   Pod.name MoreSamples.staging_pod = Pod.name Samples.web_pod) /\
  (forall n, isScaling
               (component (Rx.notify (scalePod_observer (fun _ => "1") (fun _ => "1.0")) n
                             (scalePod_begin Samples.web_pod
                                (mkRun PodsComponent.initial []))))
               Samples.web_pod = false).
Proof.
  apply (isScaling_marks_the_pod (fun _ => "1") (fun _ => "1.0")
           Samples.web_pod MoreSamples.staging_pod
           (mkRun PodsComponent.initial [])); reflexivity.
Defined.

Lemma or_number_truthy_or (a b : option float) (k : float) :
  Js.truthy_or a (Js.truthy_or b k) =
  match or_number a (or_number b None) with
  | Some v => v
  | None => k
  end.
Proof.
  unfold Js.truthy_or, or_number.
  destruct a as [v|], b as [w|]; try destruct (Js.truthy v);
    try destruct (Js.truthy w); reflexivity.
Qed.

Lemma or_number_truthy (a b : option float) (v : float) :
  or_number a (or_number b None) = Some v -> Js.truthy v = true.
Proof.
  unfold or_number.
  destruct a as [x|], b as [y|]; try destruct (Js.truthy x) eqn:Hx;
    try destruct (Js.truthy y) eqn:Hy; intros H; inversion H; subst; assumption.
Qed.

(** The alert of the pods view and the accessors of the decisions view agree
    on a decision: the confidence is the overall confidence, "Applied" reads
    "Yes" exactly when the decision counts as applied, and a current CPU or
    memory value is the one the decisions view shows whenever that one is
    truthy, and "N/A" exactly when the decisions view shows 0. *)
Theorem alert_agrees_with_decisions_view
    (number_to_string : float -> string) (result : ScalingDecision) :
  result_confidence result = Normalizer.getOverallConfidence result /\
  (applied_text result = "Yes" <-> DecisionsView.isApplied result = true) /\
  number_or_na number_to_string
    (Resources.cpu_cores <$> current_resources result)
    (CurrentMetrics.cpu_usage <$> current_metrics result) =
    (if Js.truthy (Normalizer.getCurrentCpuCores result)
     then number_to_string (Normalizer.getCurrentCpuCores result)
     else "N/A") /\
  number_or_na number_to_string
    (Resources.memory_mb <$> current_resources result)
    (CurrentMetrics.memory_usage_mb <$> current_metrics result) =
    (if Js.truthy (Normalizer.getCurrentMemoryMb result)
     then number_to_string (Normalizer.getCurrentMemoryMb result)
     else "N/A").
Proof.
  assert (Hnum : forall a b : option float,
    number_or_na number_to_string a b =
    if Js.truthy (Js.truthy_or a (Js.truthy_or b 0))
    then number_to_string (Js.truthy_or a (Js.truthy_or b 0))
    else "N/A").
  { intros a b. unfold number_or_na. rewrite or_number_truthy_or.
    destruct (or_number a (or_number b None)) as [v|] eqn:Hv.
    - rewrite (or_number_truthy _ _ _ Hv). reflexivity.
    - reflexivity. }
  split; [reflexivity |]. split.
  - unfold applied_text, DecisionsView.isApplied.
    destruct (applied result) as [[]|], (can_scale result) as [[]|];
      split; intros H; try reflexivity; discriminate H.
  - unfold Normalizer.getCurrentCpuCores, Normalizer.getCurrentMemoryMb.
    split; apply Hnum.
Qed.

End PodsViewFacts.

(** ** Config view *)

Section ConfigViewFacts.

Import ConfigView.

(** [saveConfig] sends nothing while no configuration is loaded.  Otherwise
    it sends one POST to [/config] with the JSON header, whose body holds
    exactly the six editable fields: two configurations produce the same
    body exactly when they agree on [dry_run], [scale_factor],
    [auto_scale_enabled], [auto_scale_interval], [scaling_cooldown] and
    [namespaces], so that no other field of the view ever reaches the
    backend. *)
Theorem saveConfig_sends_editable_fields
    (transport : Http.Transport Json) (st : ConfigComponent.t) :
  (ConfigComponent.config st = None ->
   saveConfig transport st = ([], mkRun st [] [])) /\
  (forall config, ConfigComponent.config st = Some config ->
     fst (saveConfig transport st) =
       [Http.mkRequest Http.POST (ApiService.apiUrl +:+ "/config")
          (Http.ConfigBody (updates_of config)) true]) /\
  (forall c1 c2 : Config.t,
     updates_of c1 = updates_of c2 <->
     Config.dry_run c1 = Config.dry_run c2 /\
     Config.scale_factor c1 = Config.scale_factor c2 /\
     Config.auto_scale_enabled c1 = Config.auto_scale_enabled c2 /\
     Config.auto_scale_interval c1 = Config.auto_scale_interval c2 /\
     Config.scaling_cooldown c1 = Config.scaling_cooldown c2 /\
     Config.namespaces c1 = Config.namespaces c2).
Proof.
  split; [| split].
  - unfold saveConfig. intros ->. reflexivity.
  - unfold saveConfig. intros config ->.
    unfold Rx.subscribe, ApiService.updateConfig. rewrite call_sends_once.
    reflexivity.
  - intros c1 c2. unfold updates_of. split.
    + intros H. injection H as Hs Hd Hn He Hi Hc. repeat split; assumption.
    + intros (Hd & Hs & He & Hi & Hc & Hn).
      rewrite Hd, Hs, He, Hi, Hc, Hn. reflexivity.
Qed.

(** Once a configuration is loaded, a save ends in one of four ways.  A
    failed call stores "Failed to update configuration".  An answer whose
    [success] member is truthy shows the success message and starts one
    3000 ms timer, whose firing clears the message and nothing else.  Any
    other answer but [null] shows neither message nor error.  In these three
    cases [saving] ends false.  A [null] answer makes the callback throw, so
    [saving] stays true.  The configuration and [loading] never change. *)
Theorem saveConfig_outcomes (transport : Http.Transport Json)
    (st : ConfigComponent.t) (config : Config.t) :
  ConfigComponent.config st = Some config ->
  ConfigComponent.config (component (snd (saveConfig transport st))) = Some config /\
  ConfigComponent.loading (component (snd (saveConfig transport st))) =
    ConfigComponent.loading st /\
  match transport (ApiService.updateConfig_request (updates_of config)) with
  | inr _ =>
      snd (saveConfig transport st) =
      mkRun (ConfigComponent.mk (Some config) (ConfigComponent.loading st)
               (Some "Failed to update configuration") None false) [] []
  | inl response =>
      match JsValue.success_of response with
      | None =>
          snd (saveConfig transport st) =
          mkRun (ConfigComponent.mk (Some config) (ConfigComponent.loading st)
                   None None true) [] ["TypeError"]
      | Some flag =>
          if match flag with Some v => JsValue.truthy v | None => false end
          then
            exists timer,
              snd (saveConfig transport st) =
              mkRun (ConfigComponent.mk (Some config) (ConfigComponent.loading st)
                       None (Some "Configuration updated successfully!") false)
                    [timer] [] /\
              delay timer = 3000%Z /\
              forall c, fire timer c =
                        ConfigComponent.mk (ConfigComponent.config c)
                          (ConfigComponent.loading c) (ConfigComponent.error c)
                          None (ConfigComponent.saving c)
          else
            snd (saveConfig transport st) =
            mkRun (ConfigComponent.mk (Some config) (ConfigComponent.loading st)
                     None None false) [] []
      end
  end.
Proof.
  intros Hconfig. destruct st as [cfg loading error success saving].
  simpl in Hconfig. subst cfg.
  unfold saveConfig, Rx.subscribe, ApiService.updateConfig. simpl.
  destruct (transport (ApiService.updateConfig_request (updates_of config)))
    as [response | e] eqn:H;
    [rewrite (call_answered _ _ _ H) | rewrite (call_failed _ _ _ H)]; simpl.
  - destruct (JsValue.success_of response) as [flag|]; simpl.
    + destruct (match flag with Some v => JsValue.truthy v | None => false end);
        simpl; repeat split.
      eexists. repeat split.
    + repeat split.
  - repeat split.
Qed.

Lemma saveConfig_outcomes_refused :
  ConfigComponent.config
    (component (snd (saveConfig
       (Samples.answering (JObject [("success", JBool false)]))
       MoreSamples.loaded_config_view))) = Some Samples.config /\
  ConfigComponent.loading
    (component (snd (saveConfig
       (Samples.answering (JObject [("success", JBool false)]))
       MoreSamples.loaded_config_view))) = false /\
  snd (saveConfig (Samples.answering (JObject [("success", JBool false)]))
         MoreSamples.loaded_config_view) =
  mkRun (ConfigComponent.mk (Some Samples.config) false None None false) [] [].
Proof.
  apply (saveConfig_outcomes
           (Samples.answering (JObject [("success", JBool false)]))
           MoreSamples.loaded_config_view Samples.config).
  reflexivity.
Defined.

Example saveConfig_samples :
  ConfigComponent.success
    (component (snd (saveConfig
       (Samples.answering (JObject [("success", JBool true)]))
       MoreSamples.loaded_config_view))) =
    Some "Configuration updated successfully!" /\
  ConfigComponent.saving
    (component (snd (saveConfig (Samples.answering JNull)
                       MoreSamples.loaded_config_view))) = true /\
  ConfigComponent.error
    (component (snd (saveConfig Samples.unavailable
                       MoreSamples.loaded_config_view))) =
    Some "Failed to update configuration" /\
  fst (saveConfig Samples.unavailable ConfigComponent.initial) = [].
Proof. repeat split. Qed.

End ConfigViewFacts.

(** ** Loads run from start to end *)

Section LoadFacts.

(** A run of [loadPods], [loadDecisions] or [loadConfig] sends exactly one
    request, to the view's own endpoint, and ends with [loading = false]
    whatever the backend answers; it ends without an error exactly when the
    call was answered, whatever error the view showed before; and an
    unconfirmed [resetConfig] does nothing. *)
Theorem load_runs_complete :
  (forall (transport : Http.Transport PodsResponse.t) (st : PodsComponent.t),
     fst (PodsComponent.loadPods transport st) = [ApiService.getPods_request] /\
     PodsComponent.loading (snd (PodsComponent.loadPods transport st)) = false /\
     (PodsComponent.error (snd (PodsComponent.loadPods transport st)) = None <->
      exists response, transport ApiService.getPods_request = inl response)) /\
  (forall (transport : Http.Transport DecisionsResponse.t) (st : DecisionsComponent.t),
     fst (DecisionsComponent.loadDecisions transport st) =
       [ApiService.getDecisions_request (Some (DecisionsComponent.limit st))] /\
     DecisionsComponent.loading (snd (DecisionsComponent.loadDecisions transport st))
       = false /\
     DecisionsComponent.limit (snd (DecisionsComponent.loadDecisions transport st))
       = DecisionsComponent.limit st /\
     (DecisionsComponent.error (snd (DecisionsComponent.loadDecisions transport st))
        = None <->
      exists response,
        transport (ApiService.getDecisions_request (Some (DecisionsComponent.limit st)))
          = inl response)) /\
  (forall (transport : Http.Transport Config.t) (st : ConfigComponent.t),
     fst (ConfigComponent.loadConfig transport st) = [ApiService.getConfig_request] /\
     ConfigComponent.loading (snd (ConfigComponent.loadConfig transport st)) = false /\
     (ConfigComponent.error (snd (ConfigComponent.loadConfig transport st)) = None <->
      exists received, transport ApiService.getConfig_request = inl received) /\
     ConfigView.resetConfig true transport st = ConfigComponent.loadConfig transport st /\
     ConfigView.resetConfig false transport st = ([], st)).
Proof.
  split; [| split].
  - intros transport st.
    unfold PodsComponent.loadPods, Rx.subscribe, ApiService.getPods.
    rewrite call_sends_once. split; [reflexivity |].
    destruct (transport ApiService.getPods_request) as [response | e] eqn:H;
      [rewrite (call_answered _ _ _ H) | rewrite (call_failed _ _ _ H)]; simpl.
    + destruct (PodsResponse.success response); simpl;
        (split; [reflexivity | split; [intros _; eauto | reflexivity]]).
    + split; [reflexivity |]. split; [discriminate |].
      intros [response Hr]. discriminate Hr.
  - intros transport st.
    unfold DecisionsComponent.loadDecisions, Rx.subscribe, ApiService.getDecisions.
    rewrite call_sends_once. split; [reflexivity |].
    destruct (transport (ApiService.getDecisions_request
                           (Some (DecisionsComponent.limit st))))
      as [response | e] eqn:H;
      [rewrite (call_answered _ _ _ H) | rewrite (call_failed _ _ _ H)]; simpl.
    + destruct (DecisionsResponse.success response); simpl;
        (split; [reflexivity |]; split; [reflexivity |];
         split; [intros _; eauto | reflexivity]).
    + split; [reflexivity |]. split; [reflexivity |]. split; [discriminate |].
      intros [response Hr]. discriminate Hr.
  - intros transport st.
    unfold ConfigView.resetConfig, ConfigComponent.loadConfig, Rx.subscribe,
      ApiService.getConfig.
    rewrite call_sends_once. split; [reflexivity |].
    destruct (transport ApiService.getConfig_request) as [received | e] eqn:H;
      [rewrite (call_answered _ _ _ H) | rewrite (call_failed _ _ _ H)]; simpl.
    + split; [reflexivity |]. split; [| split; reflexivity].
      split; [intros _; eauto | reflexivity].
    + split; [reflexivity |]. split; [| split; reflexivity].
      split; [discriminate |]. intros [received Hr]. discriminate Hr.
Qed.

End LoadFacts.

(** ** Decisions view: the applied flag and the reason *)

Section AppliedFacts.

Import DecisionsView.

(** For a decision that brings neither [applied] nor a reason of its own,
    the applied flag and the reason agree: the decision counts as not applied
    exactly when its reason reads "Scaling not allowed". *)
Theorem not_applied_iff_not_allowed (d : ScalingDecision) :
  applied d = None ->
  (forall r, reason d = Some r -> r = "") ->
  (isApplied d = false <-> getReason d = "Scaling not allowed").
Proof.
  intros Happlied Hreason.
  assert (Hr : getReason d =
               match can_scale d with
               | Some false => "Scaling not allowed"
               | _ => if (0 <? length (reason_changes d))%nat
                      then String.concat ", " (reason_changes d)
                      else "No changes needed"
               end).
  { unfold getReason. destruct (reason d) as [r|]; [| reflexivity].
    rewrite (Hreason r eq_refl). reflexivity. }
  rewrite Hr. unfold isApplied. rewrite Happlied.
  destruct (can_scale d) as [[]|]; unfold reason_changes;
    destruct (cpu_action d) as [[]|], (memory_action d) as [[]|]; simpl;
    split; intros H; try reflexivity; discriminate H.
Qed.

Lemma not_applied_iff_not_allowed_blocked :
  isApplied MoreSamples.blocked = false <->
  getReason MoreSamples.blocked = "Scaling not allowed".
Proof.
  apply (not_applied_iff_not_allowed MoreSamples.blocked);
    [reflexivity | intros r H; discriminate H].
Defined.

End AppliedFacts.

(** ** Dashboard: the periodic refresh *)

Section RefreshFacts.

Import DashboardLifecycle.

Lemma ticks_when_closed (transports : list (Http.Transport StatisticsResponse.t))
    (live : Live) :
  refreshing live = false -> ticks transports live = ([], live).
Proof.
  intros Hclosed. induction transports as [| transport rest IH]; simpl;
    [reflexivity |].
  unfold tick. rewrite Hclosed, IH. reflexivity.
Qed.

(** After [ngOnDestroy] no period sends a request or changes the dashboard.
    While the refresh is open, a period sends one statistics request; an
    answer is handed to the refresh callback and the refresh goes on; a
    failure leaves the dashboard as it is and ends the refresh, so that no
    later period sends anything, whatever the backend would answer then. *)
Theorem refresh_lifecycle :
  (forall transports live,
     ticks transports (ngOnDestroy live) = ([], ngOnDestroy live)) /\
  (forall transport transports live response,
     refreshing live = true ->
     transport ApiService.getStatistics_request = inl response ->
     ticks (transport :: transports) live =
     (ApiService.getStatistics_request ::
        fst (ticks transports
               (mkLive (Rx.next DashboardComponent.refresh_observer response
                          (component live)) true)),
      snd (ticks transports
             (mkLive (Rx.next DashboardComponent.refresh_observer response
                        (component live)) true)))) /\
  (forall transport transports live e,
     refreshing live = true ->
     transport ApiService.getStatistics_request = inr e ->
     ticks (transport :: transports) live =
     ([ApiService.getStatistics_request], mkLive (component live) false)).
Proof.
  split; [| split].
  - intros transports live. apply ticks_when_closed. reflexivity.
  - intros transport transports live response Hopen Hanswer.
    cbn [ticks]. unfold tick, ApiService.getStatistics. rewrite Hopen.
    rewrite (call_answered _ _ _ Hanswer). simpl.
    destruct (ticks transports _) as [sent2 live2]. reflexivity.
  - intros transport transports live e Hopen Hfail.
    cbn [ticks]. unfold tick, ApiService.getStatistics. rewrite Hopen.
    rewrite (call_failed _ _ _ Hfail). simpl.
    rewrite ticks_when_closed by reflexivity. reflexivity.
Qed.

Example refresh_stops_after_failure :
  ticks [Samples.unavailable;
         Samples.answering (StatisticsResponse.mk true MoreSamples.no_decisions_yet)]
        (mkLive Samples.reloading_dashboard true) =
  ([ApiService.getStatistics_request], mkLive Samples.reloading_dashboard false) /\
  DashboardComponent.statistics
    (component (snd (ticks
       [Samples.answering (StatisticsResponse.mk true MoreSamples.no_decisions_yet)]
       (mkLive Samples.reloading_dashboard true)))) =
  Some MoreSamples.no_decisions_yet.
Proof. split; reflexivity. Qed.

End RefreshFacts.
